(** * Event path validity (src/app/ember_coupling/EventPathValidity.mixin.h)

  A shallow embedding of the helpers that decide whether an event path,
  possibly with a wildcard cluster or a wildcard event, designates at
  least one existing event the subject may read.

  The helpers call the access-control subsystem; every such call is
  recorded in an audit trail, so that statements about which checks are
  performed (and in which order) can be made next to statements about the
  boolean that is returned. *)

From Stdlib Require Import ZArith List Bool Lia Permutation.
Import ListNotations.
Local Open Scope Z_scope.

(** ** Identifiers and error codes *)

(** [EndpointId] is a 16-bit and [ClusterId], [EventId] are 32-bit unsigned
  integers; the code only compares them. *)
Definition EndpointId := Z.
Definition ClusterId := Z.
Definition EventId := Z.

(** [CHIP_ERROR] is an integral error code, [CHIP_NO_ERROR] is zero. *)
Definition CHIP_ERROR := Z.
Definition CHIP_NO_ERROR : CHIP_ERROR := 0.

(** ** Build configuration

  [CHIP_CONFIG_ENABLE_EVENTLIST_ATTRIBUTE] is the preprocessor switch of the
  source; the two sentinels are the identifiers [EventPathParams] uses for
  "wildcard".  They are declared outside the file under study and are
  taken as parameters, as is the opaque subject descriptor. *)
Class Build : Type := {
SubjectDescriptor : Type;
CHIP_CONFIG_ENABLE_EVENTLIST_ATTRIBUTE : bool;
kInvalidClusterId : ClusterId;
kInvalidEventId : EventId
}.

(** ** Paths *)

Module ConcreteClusterPath.
Record t : Type := mk { mEndpointId : EndpointId; mClusterId : ClusterId }.
End ConcreteClusterPath.

Module ConcreteEventPath.
Record t : Type := mk {
  mEndpointId : EndpointId;
  mClusterId : ClusterId;
  mEventId : EventId
}.
End ConcreteEventPath.

Module EventPathParams.
Record t : Type := mk { mClusterId : ClusterId; mEventId : EventId }.

Definition HasWildcardClusterId {B : Build} (p : t) : bool :=
  mClusterId p =? kInvalidClusterId.

Definition HasWildcardEventId {B : Build} (p : t) : bool :=
  mEventId p =? kInvalidEventId.
End EventPathParams.

(** ** Access control interface *)

Module Access.
Inductive Privilege : Type :=
| kView | kProxyView | kOperate | kManage | kAdminister.

Inductive RequestType : Type :=
| kRequestTypeUnknown
| kAttributeReadRequest
| kAttributeWriteRequest
| kCommandInvokeRequest
| kEventReadRequest.

(** [entityId] is an optional value: [None] stands for "any entity". *)
Record RequestPath : Type := mkRequestPath {
  cluster : ClusterId;
  endpoint : EndpointId;
  requestType : RequestType;
  entityId : option Z
}.

(** The access-control subsystem, seen through its [Check] entry point. *)
Record AccessControl {B : Build} : Type := {
  Check : SubjectDescriptor -> RequestPath -> Privilege -> CHIP_ERROR
}.

(** One recorded invocation of [Check]. *)
Record CheckCall {B : Build} : Type := mkCall {
  call_subject : SubjectDescriptor;
  call_path : RequestPath;
  call_privilege : Privilege
}.

Arguments Check {B} _ _ _ _.
Arguments mkCall {B} _ _ _.
Arguments call_subject {B} _.
Arguments call_path {B} _.
Arguments call_privilege {B} _.
End Access.

(** ** Ember metadata *)

(** Modelled from the spec: the struct declarations of the ember metadata are
  not part of the file under study.  A cluster instance carries its
  identifier, its role on the endpoint (server-side or client-side) and the
  events it declares; [eventCount] is the length of [eventList].  In a build
  without event lists the [eventList] field is never read. *)
Inductive ClusterRole : Type := ServerCluster | ClientCluster.

Record EmberAfCluster : Type := {
clusterId : ClusterId;
role : ClusterRole;
eventList : list EventId
}.

Definition eventCount (c : EmberAfCluster) : nat := length (eventList c).

Record EmberAfEndpointType : Type := { cluster : list EmberAfCluster }.

Definition clusterCount (et : EmberAfEndpointType) : nat :=
length (cluster et).

(** The data-model collaborators the helpers call: the two registry lookups
  ([None] is the null pointer) and [RequiredPrivilege::ForReadEvent]. *)
Record DataModel : Type := {
emberAfFindEndpointType : EndpointId -> option EmberAfEndpointType;
emberAfFindServerCluster : EndpointId -> ClusterId -> option EmberAfCluster;
ForReadEvent : ConcreteEventPath.t -> Access.Privilege
}.

(** ** Audit trail monad *)

Definition Audited {B : Build} (A : Type) : Type :=
(A * list Access.CheckCall)%type.

Definition ret {B : Build} {A : Type} (a : A) : Audited A := (a, []).

Definition bind {B : Build} {A C : Type}
(m : Audited A) (k : A -> Audited C) : Audited C :=
let r := k (fst m) in (fst r, snd m ++ snd r).

Notation "x <- m ;; k" := (bind m (fun x => k))
(at level 61, m at next level, right associativity).

Definition result {B : Build} {A : Type} (m : Audited A) : A := fst m.
Definition trail {B : Build} {A : Type} (m : Audited A)
: list Access.CheckCall := snd m.

(** [Access::GetAccessControl().Check(...)], recorded. *)
Definition GetAccessControl_Check {B : Build} (ac : Access.AccessControl)
(s : SubjectDescriptor) (rp : Access.RequestPath) (priv : Access.Privilege)
: Audited CHIP_ERROR :=
(Access.Check ac s rp priv, [Access.mkCall s rp priv]).

(** ** The helpers of the source file *)

Section Helpers.
Context {B : Build}.
Variable ac : Access.AccessControl.
Variable dm : DataModel.

Fixpoint ClusterSupportsEvent_scan (events : list EventId) (eventId : EventId)
  : bool :=
  match events with
  | [] => false
  | ev :: rest =>
      if ev =? eventId then true else ClusterSupportsEvent_scan rest eventId
  end.

Definition ClusterSupportsEvent (cluster : EmberAfCluster) (eventId : EventId)
  : bool :=
  if CHIP_CONFIG_ENABLE_EVENTLIST_ATTRIBUTE
  then ClusterSupportsEvent_scan (eventList cluster) eventId
  else true.

(** The overload on [ConcreteClusterPath], compiled only without event
    lists: the entity is left unset. *)
Definition CanAccessEvent_ClusterPath (aSubjectDescriptor : SubjectDescriptor)
  (aPath : ConcreteClusterPath.t) (aNeededPrivilege : Access.Privilege)
  : Audited bool :=
  let requestPath :=
    Access.mkRequestPath (ConcreteClusterPath.mClusterId aPath)
                         (ConcreteClusterPath.mEndpointId aPath)
                         Access.kEventReadRequest None in
  err <- GetAccessControl_Check ac aSubjectDescriptor requestPath
           aNeededPrivilege ;;
  ret (err =? CHIP_NO_ERROR).

Definition CanAccessEvent (aSubjectDescriptor : SubjectDescriptor)
  (aPath : ConcreteEventPath.t) : Audited bool :=
  let requestPath :=
    Access.mkRequestPath (ConcreteEventPath.mClusterId aPath)
                         (ConcreteEventPath.mEndpointId aPath)
                         Access.kEventReadRequest
                         (Some (ConcreteEventPath.mEventId aPath)) in
  err <- GetAccessControl_Check ac aSubjectDescriptor requestPath
           (ForReadEvent dm aPath) ;;
  ret (err =? CHIP_NO_ERROR).

(** The loop over [aCluster->eventList]. *)
Fixpoint wildcard_event_loop (aEndpoint : EndpointId) (aClusterId : ClusterId)
  (aSubjectDescriptor : SubjectDescriptor) (events : list EventId)
  : Audited bool :=
  match events with
  | [] => ret false
  | ev :: rest =>
      let path := ConcreteEventPath.mk aEndpoint aClusterId ev in
      isValid <- CanAccessEvent aSubjectDescriptor path ;;
      if isValid then ret true
      else wildcard_event_loop aEndpoint aClusterId aSubjectDescriptor rest
  end.

Definition HasValidEventPathForEndpointAndCluster (aEndpoint : EndpointId)
  (aCluster : EmberAfCluster) (aEventPath : EventPathParams.t)
  (aSubjectDescriptor : SubjectDescriptor) : Audited bool :=
  if EventPathParams.HasWildcardEventId aEventPath then
    if CHIP_CONFIG_ENABLE_EVENTLIST_ATTRIBUTE then
      wildcard_event_loop aEndpoint (clusterId aCluster) aSubjectDescriptor
        (eventList aCluster)
    else
      let clusterPath :=
        ConcreteClusterPath.mk aEndpoint (clusterId aCluster) in
      CanAccessEvent_ClusterPath aSubjectDescriptor clusterPath Access.kView
  else if negb (ClusterSupportsEvent aCluster
                  (EventPathParams.mEventId aEventPath)) then
    ret false
  else
    let path := ConcreteEventPath.mk aEndpoint (clusterId aCluster)
                  (EventPathParams.mEventId aEventPath) in
    CanAccessEvent aSubjectDescriptor path.

(** The loop over [endpointType->cluster]. *)
Fixpoint wildcard_cluster_loop (aEndpoint : EndpointId)
  (aEventPath : EventPathParams.t) (aSubjectDescriptor : SubjectDescriptor)
  (clusters : list EmberAfCluster) : Audited bool :=
  match clusters with
  | [] => ret false
  | c :: rest =>
      hasValidPath <- HasValidEventPathForEndpointAndCluster aEndpoint c
                        aEventPath aSubjectDescriptor ;;
      if hasValidPath then ret true
      else wildcard_cluster_loop aEndpoint aEventPath aSubjectDescriptor rest
  end.

Definition HasValidEventPathForEndpoint (aEndpoint : EndpointId)
  (aEventPath : EventPathParams.t) (aSubjectDescriptor : SubjectDescriptor)
  : Audited bool :=
  if EventPathParams.HasWildcardClusterId aEventPath then
    match emberAfFindEndpointType dm aEndpoint with
    | None => ret false
    | Some endpointType =>
        wildcard_cluster_loop aEndpoint aEventPath aSubjectDescriptor
          (cluster endpointType)
    end
  else
    match emberAfFindServerCluster dm aEndpoint
            (EventPathParams.mClusterId aEventPath) with
    | None => ret false
    | Some cluster =>
        HasValidEventPathForEndpointAndCluster aEndpoint cluster aEventPath
          aSubjectDescriptor
    end.
End Helpers.

Arguments ClusterSupportsEvent {B} cluster eventId.
Arguments CanAccessEvent_ClusterPath {B} ac aSubjectDescriptor aPath
  aNeededPrivilege.

(** ** Vocabulary of the properties *)

Section Vocabulary.
Context {B : Build}.
Variable ac : Access.AccessControl.
Variable dm : DataModel.

(** The request the access-control subsystem sees for one exact event. *)
Definition event_request (path : ConcreteEventPath.t) : Access.RequestPath :=
  {| Access.cluster := ConcreteEventPath.mClusterId path;
     Access.endpoint := ConcreteEventPath.mEndpointId path;
     Access.requestType := Access.kEventReadRequest;
     Access.entityId := Some (ConcreteEventPath.mEventId path) |}.

(** The request for "any event" of a cluster: no entity. *)
Definition cluster_request (ep : EndpointId) (cid : ClusterId)
  : Access.RequestPath :=
  {| Access.cluster := cid;
     Access.endpoint := ep;
     Access.requestType := Access.kEventReadRequest;
     Access.entityId := None |}.

(** The subject is granted the privilege required for reading [path]. *)
Definition grants_event (s : SubjectDescriptor) (path : ConcreteEventPath.t)
  : bool :=
  Access.Check ac s (event_request path) (ForReadEvent dm path)
    =? CHIP_NO_ERROR.

(** The subject is granted View on the events of a cluster as a whole. *)
Definition grants_cluster_view (s : SubjectDescriptor) (ep : EndpointId)
  (cid : ClusterId) : bool :=
  Access.Check ac s (cluster_request ep cid) Access.kView =? CHIP_NO_ERROR.

Definition event_call (s : SubjectDescriptor) (path : ConcreteEventPath.t)
  : Access.CheckCall :=
  Access.mkCall s (event_request path) (ForReadEvent dm path).

Definition cluster_view_call (s : SubjectDescriptor) (ep : EndpointId)
  (cid : ClusterId) : Access.CheckCall :=
  Access.mkCall s (cluster_request ep cid) Access.kView.

(** The cluster's metadata declares the event. *)
Definition declares (c : EmberAfCluster) (e : EventId) : bool :=
  existsb (fun ev => ev =? e) (eventList c).

(** The cluster instances a specifier ranges over on an endpoint: every
    instance the endpoint type lists, server-side or client-side, for a
    wildcard cluster; the instance the server-cluster lookup finds for a
    concrete identifier.  The events it ranges over in one instance. *)
Definition candidate_clusters (ep : EndpointId) (p : EventPathParams.t)
  : list EmberAfCluster :=
  if EventPathParams.HasWildcardClusterId p then
    match emberAfFindEndpointType dm ep with
    | Some et => cluster et
    | None => []
    end
  else
    match emberAfFindServerCluster dm ep (EventPathParams.mClusterId p) with
    | Some c => [c]
    | None => []
    end.







(** The event is declared by the metadata of the server-side cluster the
    specifier names on the endpoint. *)
Definition event_declared (ep : EndpointId) (cid : ClusterId) (e : EventId)
  : Prop :=
  exists c, emberAfFindServerCluster dm ep cid = Some c /\ In e (eventList c).

(** The reading of a fully concrete specifier that ignores whether the
    cluster is found: existence (declared, or assumed without event lists)
    and permission. *)
Definition existence_and_permission (s : SubjectDescriptor) (ep : EndpointId)
  (p : EventPathParams.t) : Prop :=
  (event_declared ep (EventPathParams.mClusterId p)
     (EventPathParams.mEventId p)
   \/ CHIP_CONFIG_ENABLE_EVENTLIST_ATTRIBUTE = false)
  /\ grants_event s (ConcreteEventPath.mk ep (EventPathParams.mClusterId p)
                       (EventPathParams.mEventId p)) = true.

(** One access-control subsystem grants at least what another grants. *)
Definition widens (ac' : Access.AccessControl) : Prop :=
  forall s rp priv,
    Access.Check ac s rp priv = CHIP_NO_ERROR ->
    Access.Check ac' s rp priv = CHIP_NO_ERROR.

(** What the helpers rely on from the two registry lookups: the cluster found
    for an identifier carries that identifier, and an endpoint that is not
    registered has no cluster. *)
Record lookup_contract : Prop := {
  found_cluster_id :
    forall ep cid c,
      emberAfFindServerCluster dm ep cid = Some c -> clusterId c = cid;
  absent_endpoint_no_cluster :
    forall ep cid,
      emberAfFindEndpointType dm ep = None ->
      emberAfFindServerCluster dm ep cid = None
}.
End Vocabulary.

(** ** A registry *)

(** Modelled from the spec: the data-model registry and its two lookups are
    not part of the file under study.  Endpoints are looked up by identifier;
    a cluster is looked up by identifier on one endpoint, and only server-side
    cluster instances are considered. *)
Definition Registry := list (EndpointId * EmberAfEndpointType).

Fixpoint registry_find_endpoint (reg : Registry) (ep : EndpointId)
  : option EmberAfEndpointType :=
  match reg with
  | [] => None
  | (id, et) :: rest =>
      if id =? ep then Some et else registry_find_endpoint rest ep
  end.

Definition is_server (c : EmberAfCluster) : bool :=
  match role c with ServerCluster => true | ClientCluster => false end.

Definition registry_find_server_cluster (reg : Registry) (ep : EndpointId)
  (cid : ClusterId) : option EmberAfCluster :=
  match registry_find_endpoint reg ep with
  | None => None
  | Some et => find (fun c => (clusterId c =? cid) && is_server c) (cluster et)
  end.

Definition registry_data_model (reg : Registry)
  (required : ConcreteEventPath.t -> Access.Privilege) : DataModel :=
  {| emberAfFindEndpointType := registry_find_endpoint reg;
     emberAfFindServerCluster := registry_find_server_cluster reg;
     ForReadEvent := required |}.

(** ** Sample configurations *)

Module Sample.
(** Subjects are told apart by a node identifier. *)
Definition precise : Build :=
  {| SubjectDescriptor := Z;
     CHIP_CONFIG_ENABLE_EVENTLIST_ATTRIBUTE := true;
     kInvalidClusterId := 0xFFFFFFFF;
     kInvalidEventId := 0xFFFFFFFF |}.

Definition degraded : Build :=
  {| SubjectDescriptor := Z;
     CHIP_CONFIG_ENABLE_EVENTLIST_ATTRIBUTE := false;
     kInvalidClusterId := 0xFFFFFFFF;
     kInvalidEventId := 0xFFFFFFFF |}.

Definition CHIP_ERROR_ACCESS_DENIED : CHIP_ERROR := 0xA5.

(** Every event needs View. *)
Definition view_for_all (_ : ConcreteEventPath.t) : Access.Privilege :=
  Access.kView.

(** Grants every request. *)
Definition allow_all (B : Build) : @Access.AccessControl B :=
  {| Access.Check := fun _ _ _ => CHIP_NO_ERROR |}.

(** Denies every request. *)
Definition deny_all (B : Build) : @Access.AccessControl B :=
  {| Access.Check := fun _ _ _ => CHIP_ERROR_ACCESS_DENIED |}.

(** Grants every request except those naming event 1. *)
Definition deny_event_1 (B : Build) : @Access.AccessControl B :=
  {| Access.Check := fun _ rp _ =>
       match Access.entityId rp with
       | Some 1 => CHIP_ERROR_ACCESS_DENIED
       | _ => CHIP_NO_ERROR
       end |}.

(** Subject 7 is granted everything, everybody else nothing. *)
Definition only_subject_7 : @Access.AccessControl precise :=
  @Access.Build_AccessControl precise
    (fun s _ _ =>
       if Z.eqb s 7 then CHIP_NO_ERROR else CHIP_ERROR_ACCESS_DENIED).

(** On/off cluster 6 declaring StateChanged (event 0). *)
Definition onoff : EmberAfCluster :=
  {| clusterId := 6; role := ServerCluster; eventList := [0] |}.


(** A cluster declaring three events. *)
Definition three_events : EmberAfCluster :=
  {| clusterId := 40; role := ServerCluster; eventList := [1; 2; 3] |}.

(** A client-side instance of cluster 6. *)
Definition onoff_client : EmberAfCluster :=
  {| clusterId := 6; role := ClientCluster; eventList := [0] |}.

Definition registry_onoff : Registry := [(1, {| cluster := [onoff] |})].
Definition registry_three_events : Registry :=
  [(1, {| cluster := [onoff; three_events] |})].
Definition registry_client_only : Registry :=
  [(1, {| cluster := [onoff_client] |})].

Definition wildcard_event_of (cid : ClusterId) : EventPathParams.t :=
  EventPathParams.mk cid 0xFFFFFFFF.
Definition wildcard_cluster_event_0 : EventPathParams.t :=
  EventPathParams.mk 0xFFFFFFFF 0.
End Sample.

(** ** Vocabulary of the audit trail *)

(** The elements of a list up to and including the first one satisfying
    [f]: what a linear search with early exit visits. *)
Fixpoint up_to_first {A : Type} (f : A -> bool) (l : list A) : list A :=
  match l with
  | [] => []
  | x :: rest => if f x then [x] else x :: up_to_first f rest
  end.

(** [t'] is an initial segment of [t]. *)
Definition is_prefix {A : Type} (t' t : list A) : Prop :=
  exists rest, t = t' ++ rest.

Section TrailVocabulary.
Context {B : Build}.
Variable ac : Access.AccessControl.
Variable dm : DataModel.

(** The recorded check was granted. *)
Definition call_granted (call : Access.CheckCall) : bool :=
  Access.Check ac (Access.call_subject call) (Access.call_path call)
    (Access.call_privilege call) =? CHIP_NO_ERROR.

(** The answer agrees with the trail: a true answer comes from a granted
    last check preceded by refused ones only, a false answer from refused
    checks only. *)
Definition outcome_matches_trail (r : Audited bool) : Prop :=
  if result r then
    exists pre last,
      trail r = pre ++ [last]
      /\ call_granted last = true
      /\ Forall (fun call => call_granted call = false) pre
  else Forall (fun call => call_granted call = false) (trail r).

(** With event lists: the events of one cluster a specifier leads to a check
    for, and the concrete paths of a whole resolution, in the order the loops
    visit them. *)
Definition events_to_check (c : EmberAfCluster) (p : EventPathParams.t)
  : list EventId :=
  if EventPathParams.HasWildcardEventId p then eventList c
  else if declares c (EventPathParams.mEventId p)
       then [EventPathParams.mEventId p] else [].

Definition paths_to_check (ep : EndpointId) (p : EventPathParams.t)
  : list ConcreteEventPath.t :=
  flat_map (fun c => map (ConcreteEventPath.mk ep (clusterId c))
                         (events_to_check c p))
           (candidate_clusters dm ep p).

(** Without event lists: the one check made for a cluster, and its outcome. *)
Definition degraded_call (s : SubjectDescriptor) (ep : EndpointId)
  (p : EventPathParams.t) (c : EmberAfCluster) : Access.CheckCall :=
  if EventPathParams.HasWildcardEventId p
  then cluster_view_call s ep (clusterId c)
  else event_call dm s (ConcreteEventPath.mk ep (clusterId c)
                          (EventPathParams.mEventId p)).

Definition degraded_grant (s : SubjectDescriptor) (ep : EndpointId)
  (p : EventPathParams.t) (c : EmberAfCluster) : bool :=
  if EventPathParams.HasWildcardEventId p
  then grants_cluster_view ac s ep (clusterId c)
  else grants_event ac dm s (ConcreteEventPath.mk ep (clusterId c)
                               (EventPathParams.mEventId p)).

(** The checks a resolution makes if none is granted: those of each cluster
    the specifier ranges over, cluster after cluster. *)
Definition calls_for_cluster (s : SubjectDescriptor) (ep : EndpointId)
  (p : EventPathParams.t) (c : EmberAfCluster) : list Access.CheckCall :=
  if CHIP_CONFIG_ENABLE_EVENTLIST_ATTRIBUTE
  then map (fun e => event_call dm s (ConcreteEventPath.mk ep (clusterId c) e))
           (events_to_check c p)
  else [degraded_call s ep p c].

Definition planned_calls (s : SubjectDescriptor) (ep : EndpointId)
  (p : EventPathParams.t) : list Access.CheckCall :=
  flat_map (calls_for_cluster s ep p) (candidate_clusters dm ep p).

(** An upper bound on the checks one cluster can cost, and on the checks of
    a whole resolution. *)
Definition checks_per_cluster (p : EventPathParams.t) (c : EmberAfCluster)
  : nat :=
  if EventPathParams.HasWildcardEventId p
     && CHIP_CONFIG_ENABLE_EVENTLIST_ATTRIBUTE
  then eventCount c else 1%nat.

Definition max_checks (ep : EndpointId) (p : EventPathParams.t) : nat :=
  list_sum (map (checks_per_cluster p) (candidate_clusters dm ep p)).

(** [p'] asks for at least what [p] asks for: each identifier of [p'] is a
    wildcard or the identifier of [p]. *)
Definition generalizes (p p' : EventPathParams.t) : Prop :=
  (EventPathParams.HasWildcardClusterId p' = true
   \/ EventPathParams.mClusterId p' = EventPathParams.mClusterId p)
  /\ (EventPathParams.HasWildcardEventId p' = true
      \/ EventPathParams.mEventId p' = EventPathParams.mEventId p).

(** The cluster the server-cluster lookup finds on an endpoint is one of
    the clusters of that endpoint's type. *)
Definition found_clusters_listed (ep : EndpointId) : Prop :=
  forall cid c,
    emberAfFindServerCluster dm ep cid = Some c ->
    exists et, emberAfFindEndpointType dm ep = Some et /\ In c (cluster et).
End TrailVocabulary.

Module MoreSamples.
(** Endpoint 1 with the clusters of [Sample.registry_three_events] in the
    other order. *)
Definition registry_three_events_swapped : Registry :=
  [(1, {| cluster := [Sample.three_events; Sample.onoff] |})].

(** The three events of [Sample.three_events] in another order. *)
Definition three_events_reordered : EmberAfCluster :=
  {| clusterId := 40; role := ServerCluster; eventList := [3; 1; 2] |}.

Definition wildcard_cluster_and_event : EventPathParams.t :=
  EventPathParams.mk 0xFFFFFFFF 0xFFFFFFFF.

(** Grants requests naming event 2 or event 3 only. *)
Definition only_events_2_3 (B : Build) : @Access.AccessControl B :=
  {| Access.Check := fun _ rp _ =>
       match Access.entityId rp with
       | Some 2 => CHIP_NO_ERROR
       | Some 3 => CHIP_NO_ERROR
       | _ => Sample.CHIP_ERROR_ACCESS_DENIED
       end |}.

(** Grants requests naming event 3 only. *)
Definition only_event_3 (B : Build) : @Access.AccessControl B :=
  {| Access.Check := fun _ rp _ =>
       match Access.entityId rp with
       | Some 3 => CHIP_NO_ERROR
       | _ => Sample.CHIP_ERROR_ACCESS_DENIED
       end |}.
End MoreSamples.

(** ** Basic facts about the helpers *)

Section HelperFacts.
Context {B : Build}.
Variable ac : Access.AccessControl.
Variable dm : DataModel.

Lemma CanAccessEvent_run (s : SubjectDescriptor) (path : ConcreteEventPath.t) :
  CanAccessEvent ac dm s path
  = (grants_event ac dm s path, [event_call dm s path]).
Proof. reflexivity. Qed.

Lemma CanAccessEvent_ClusterPath_run (s : SubjectDescriptor)
  (ep : EndpointId) (cid : ClusterId) :
  CanAccessEvent_ClusterPath ac s (ConcreteClusterPath.mk ep cid) Access.kView
  = (grants_cluster_view ac s ep cid, [cluster_view_call s ep cid]).
Proof. reflexivity. Qed.

Lemma ClusterSupportsEvent_scan_existsb (events : list EventId) (e : EventId) :
  ClusterSupportsEvent_scan events e = existsb (fun ev => ev =? e) events.
Proof.
  induction events as [|ev rest IH]; simpl.
  - reflexivity.
  - rewrite IH. destruct (ev =? e); reflexivity.
Qed.

Lemma ClusterSupportsEvent_scan_In (events : list EventId) (e : EventId) :
  ClusterSupportsEvent_scan events e = true <-> In e events.
Proof.
  rewrite ClusterSupportsEvent_scan_existsb, existsb_exists. split.
  - intros [x [Hin Heq]]. apply Z.eqb_eq in Heq. subst. exact Hin.
  - intros Hin. exists e. split; [exact Hin | apply Z.eqb_refl].
Qed.


(** One turn of the event loop. *)
Lemma wildcard_event_loop_cons (ep : EndpointId) (cid : ClusterId)
  (s : SubjectDescriptor) (e : EventId) (rest : list EventId) :
  wildcard_event_loop ac dm ep cid s (e :: rest)
  = if grants_event ac dm s (ConcreteEventPath.mk ep cid e)
    then (true, [event_call dm s (ConcreteEventPath.mk ep cid e)])
    else (result (wildcard_event_loop ac dm ep cid s rest),
          event_call dm s (ConcreteEventPath.mk ep cid e)
            :: trail (wildcard_event_loop ac dm ep cid s rest)).
Proof.
  change (wildcard_event_loop ac dm ep cid s (e :: rest))
    with (bind (CanAccessEvent ac dm s (ConcreteEventPath.mk ep cid e))
            (fun isValid => if isValid then ret true
                            else wildcard_event_loop ac dm ep cid s rest)).
  rewrite CanAccessEvent_run. unfold bind. cbn [fst snd].
  destruct (grants_event ac dm s (ConcreteEventPath.mk ep cid e)); reflexivity.
Qed.

(** The event loop returns whether some declared event is granted, in one
    pass. *)
Lemma wildcard_event_loop_result (ep : EndpointId) (cid : ClusterId)
  (s : SubjectDescriptor) (events : list EventId) :
  result (wildcard_event_loop ac dm ep cid s events)
  = existsb (fun e => grants_event ac dm s (ConcreteEventPath.mk ep cid e))
            events.
Proof.
  induction events as [|e rest IH].
  - reflexivity.
  - rewrite wildcard_event_loop_cons. cbn [existsb].
    destruct (grants_event ac dm s (ConcreteEventPath.mk ep cid e)).
    + reflexivity.
    + exact IH.
Qed.

(** The checks the event loop performs: one per event, in stored order, up
    to and including the first granted one. *)
Lemma wildcard_event_loop_stops (ep : EndpointId) (cid : ClusterId)
  (s : SubjectDescriptor) (denied rest : list EventId) (e : EventId) :
  forallb (fun d => negb (grants_event ac dm s (ConcreteEventPath.mk ep cid d)))
          denied = true ->
  grants_event ac dm s (ConcreteEventPath.mk ep cid e) = true ->
  wildcard_event_loop ac dm ep cid s (denied ++ e :: rest)
  = (true, map (fun x => event_call dm s (ConcreteEventPath.mk ep cid x))
               (denied ++ [e])).
Proof.
  intros Hden Hok.
  induction denied as [|d ds IH].
  - cbn [app map]. rewrite wildcard_event_loop_cons, Hok. reflexivity.
  - cbn [forallb] in Hden. apply andb_true_iff in Hden.
    destruct Hden as [Hd Hds]. apply negb_true_iff in Hd.
    rewrite <- !app_comm_cons. rewrite wildcard_event_loop_cons, Hd.
    rewrite (IH Hds). reflexivity.
Qed.

Lemma wildcard_event_loop_exhausts (ep : EndpointId) (cid : ClusterId)
  (s : SubjectDescriptor) (events : list EventId) :
  forallb (fun d => negb (grants_event ac dm s (ConcreteEventPath.mk ep cid d)))
          events = true ->
  wildcard_event_loop ac dm ep cid s events
  = (false, map (fun x => event_call dm s (ConcreteEventPath.mk ep cid x))
                events).
Proof.
  intros Hden.
  induction events as [|d ds IH].
  - reflexivity.
  - cbn [forallb] in Hden. apply andb_true_iff in Hden.
    destruct Hden as [Hd Hds]. apply negb_true_iff in Hd.
    rewrite wildcard_event_loop_cons, Hd. rewrite (IH Hds). reflexivity.
Qed.

(** The cluster loop returns whether the cluster-level helper accepts some
    cluster of the list. *)
Lemma wildcard_cluster_loop_result (ep : EndpointId) (p : EventPathParams.t)
  (s : SubjectDescriptor) (clusters : list EmberAfCluster) :
  result (wildcard_cluster_loop ac dm ep p s clusters)
  = existsb
      (fun c => result (HasValidEventPathForEndpointAndCluster ac dm ep c p s))
      clusters.
Proof.
  induction clusters as [|c rest IH].
  - reflexivity.
  - cbn [wildcard_cluster_loop existsb]. unfold bind, result in *.
    cbn [fst snd].
    destruct (fst (HasValidEventPathForEndpointAndCluster ac dm ep c p s)).
    + reflexivity.
    + exact IH.
Qed.

(** The three cases of the cluster-level helper. *)
Lemma cluster_level_wildcard_precise (ep : EndpointId) (c : EmberAfCluster)
  (p : EventPathParams.t) (s : SubjectDescriptor) :
  EventPathParams.HasWildcardEventId p = true ->
  CHIP_CONFIG_ENABLE_EVENTLIST_ATTRIBUTE = true ->
  HasValidEventPathForEndpointAndCluster ac dm ep c p s
  = wildcard_event_loop ac dm ep (clusterId c) s (eventList c).
Proof.
  intros Hw Hf. unfold HasValidEventPathForEndpointAndCluster.
  rewrite Hw, Hf. reflexivity.
Qed.

Lemma cluster_level_wildcard_degraded (ep : EndpointId) (c : EmberAfCluster)
  (p : EventPathParams.t) (s : SubjectDescriptor) :
  EventPathParams.HasWildcardEventId p = true ->
  CHIP_CONFIG_ENABLE_EVENTLIST_ATTRIBUTE = false ->
  HasValidEventPathForEndpointAndCluster ac dm ep c p s
  = (grants_cluster_view ac s ep (clusterId c),
     [cluster_view_call s ep (clusterId c)]).
Proof.
  intros Hw Hf. unfold HasValidEventPathForEndpointAndCluster.
  rewrite Hw, Hf. apply CanAccessEvent_ClusterPath_run.
Qed.

Lemma cluster_level_concrete (ep : EndpointId) (c : EmberAfCluster)
  (p : EventPathParams.t) (s : SubjectDescriptor) :
  EventPathParams.HasWildcardEventId p = false ->
  HasValidEventPathForEndpointAndCluster ac dm ep c p s
  = if ClusterSupportsEvent c (EventPathParams.mEventId p)
    then CanAccessEvent ac dm s
           (ConcreteEventPath.mk ep (clusterId c) (EventPathParams.mEventId p))
    else ret false.
Proof.
  intros Hw. unfold HasValidEventPathForEndpointAndCluster.
  rewrite Hw. destruct (ClusterSupportsEvent c (EventPathParams.mEventId p));
    reflexivity.
Qed.
End HelperFacts.

(** ** The result of each level, without the audit trail *)

Section Results.
Context {B : Build}.
Variable ac : Access.AccessControl.
Variable dm : DataModel.

Lemma cluster_level_result (ep : EndpointId) (c : EmberAfCluster)
  (p : EventPathParams.t) (s : SubjectDescriptor) :
  result (HasValidEventPathForEndpointAndCluster ac dm ep c p s)
  = if EventPathParams.HasWildcardEventId p then
      if CHIP_CONFIG_ENABLE_EVENTLIST_ATTRIBUTE then
        existsb (fun e => grants_event ac dm s
                            (ConcreteEventPath.mk ep (clusterId c) e))
                (eventList c)
      else grants_cluster_view ac s ep (clusterId c)
    else
      ClusterSupportsEvent c (EventPathParams.mEventId p)
      && grants_event ac dm s
           (ConcreteEventPath.mk ep (clusterId c) (EventPathParams.mEventId p)).
Proof.
  destruct (EventPathParams.HasWildcardEventId p) eqn:Hw.
  - destruct CHIP_CONFIG_ENABLE_EVENTLIST_ATTRIBUTE eqn:Hf.
    + rewrite cluster_level_wildcard_precise by assumption.
      apply wildcard_event_loop_result.
    + rewrite cluster_level_wildcard_degraded by assumption. reflexivity.
  - rewrite cluster_level_concrete by assumption.
    destruct (ClusterSupportsEvent c (EventPathParams.mEventId p)).
    + rewrite CanAccessEvent_run. reflexivity.
    + reflexivity.
Qed.

Lemma endpoint_level_result (ep : EndpointId) (p : EventPathParams.t)
  (s : SubjectDescriptor) :
  result (HasValidEventPathForEndpoint ac dm ep p s)
  = existsb
      (fun c => result (HasValidEventPathForEndpointAndCluster ac dm ep c p s))
      (candidate_clusters dm ep p).
Proof.
  unfold HasValidEventPathForEndpoint, candidate_clusters.
  destruct (EventPathParams.HasWildcardClusterId p).
  - destruct (emberAfFindEndpointType dm ep) as [et|].
    + apply wildcard_cluster_loop_result.
    + reflexivity.
  - destruct (emberAfFindServerCluster dm ep (EventPathParams.mClusterId p))
      as [c|].
    + cbn [existsb]. rewrite orb_false_r. reflexivity.
    + reflexivity.
Qed.
End Results.

Lemma existsb_ext_in {A : Type} (f g : A -> bool) (l : list A) :
  (forall x, In x l -> f x = g x) -> existsb f l = existsb g l.
Proof.
  induction l as [|a l IH]; intros Hfg.
  - reflexivity.
  - cbn [existsb]. rewrite (Hfg a) by (left; reflexivity).
    rewrite IH; [reflexivity|]. intros x Hx. apply Hfg. right. exact Hx.
Qed.

Lemma existsb_mono {A : Type} (f g : A -> bool) (l : list A) :
  (forall x, f x = true -> g x = true) ->
  existsb f l = true -> existsb g l = true.
Proof.
  intros Hfg Hex. apply existsb_exists in Hex. destruct Hex as [x [Hin Hfx]].
  apply existsb_exists. exists x. split; [exact Hin | apply Hfg; exact Hfx].
Qed.

(** The registry model meets the contract of the lookups. *)
Lemma registry_lookup_contract (reg : Registry)
  (required : ConcreteEventPath.t -> Access.Privilege) :
  lookup_contract (registry_data_model reg required).
Proof.
  split; cbn [registry_data_model emberAfFindServerCluster
              emberAfFindEndpointType]; unfold registry_find_server_cluster.
  - intros ep cid c. destruct (registry_find_endpoint reg ep) as [et|].
    + intros Hfind. apply find_some in Hfind. destruct Hfind as [_ Hc].
      apply andb_true_iff in Hc. destruct Hc as [Hid _].
      apply Z.eqb_eq. exact Hid.
    + discriminate.
  - intros ep cid Hnone. rewrite Hnone. reflexivity.
Qed.

(** ** Properties of the resolution *)

Section Properties.
Context {B : Build}.

(** C4. For a concrete event identifier the cluster does not declare, the
    cluster-level helper answers false and performs no access-control
    check. *)
Theorem undeclared_event_rejected_unchecked
  (ac : Access.AccessControl) (dm : DataModel) (ep : EndpointId)
  (c : EmberAfCluster) (p : EventPathParams.t) (s : SubjectDescriptor) :
  EventPathParams.HasWildcardEventId p = false ->
  ClusterSupportsEvent c (EventPathParams.mEventId p) = false ->
  result (HasValidEventPathForEndpointAndCluster ac dm ep c p s) = false
  /\ trail (HasValidEventPathForEndpointAndCluster ac dm ep c p s) = [].
Proof.
  intros Hw Hsup. rewrite cluster_level_concrete by exact Hw.
  rewrite Hsup. split; reflexivity.
Qed.

(** C6. With event lists and a wildcard event, the declared events are
    checked in stored order and the first granted one ends the loop: when
    the list is [denied ++ e :: rest], every event of [denied] being refused
    and [e] granted, the answer is true and the checks performed are exactly
    those for [denied] and then [e]; none is performed for [rest]. *)
Theorem wildcard_event_stops_at_first_granted
  (ac : Access.AccessControl) (dm : DataModel) (ep : EndpointId)
  (c : EmberAfCluster) (p : EventPathParams.t) (s : SubjectDescriptor)
  (denied rest : list EventId) (e : EventId) :
  CHIP_CONFIG_ENABLE_EVENTLIST_ATTRIBUTE = true ->
  EventPathParams.HasWildcardEventId p = true ->
  eventList c = denied ++ e :: rest ->
  (forall d, In d denied ->
     grants_event ac dm s (ConcreteEventPath.mk ep (clusterId c) d) = false) ->
  grants_event ac dm s (ConcreteEventPath.mk ep (clusterId c) e) = true ->
  result (HasValidEventPathForEndpointAndCluster ac dm ep c p s) = true
  /\ trail (HasValidEventPathForEndpointAndCluster ac dm ep c p s)
     = map (fun x => event_call dm s (ConcreteEventPath.mk ep (clusterId c) x))
           (denied ++ [e]).
Proof.
  intros Hf Hw Hlist Hden Hok.
  rewrite cluster_level_wildcard_precise by assumption.
  rewrite Hlist, wildcard_event_loop_stops.
  - split; reflexivity.
  - apply forallb_forall. intros d Hd. rewrite (Hden d Hd). reflexivity.
  - exact Hok.
Qed.

(** C3. Without event lists, a wildcard event over a found cluster is
    settled by one coarse check: View on the (endpoint, cluster) pair with no
    entity.  That check is the only one performed; the answer depends on the
    cluster's identifier alone, not on the events it lists.  This holds for
    the cluster-level helper on any cluster it is handed, and for the
    endpoint-level helper on the cluster found for a concrete identifier. *)
Theorem degraded_wildcard_event_is_coarse_check
  (ac : Access.AccessControl) (dm : DataModel) (ep : EndpointId)
  (p : EventPathParams.t) (s : SubjectDescriptor) :
  CHIP_CONFIG_ENABLE_EVENTLIST_ATTRIBUTE = false ->
  EventPathParams.HasWildcardEventId p = true ->
  (forall c,
     HasValidEventPathForEndpointAndCluster ac dm ep c p s
     = (Access.Check ac s
          (Access.mkRequestPath (clusterId c) ep Access.kEventReadRequest None)
          Access.kView =? CHIP_NO_ERROR,
        [Access.mkCall s
           (Access.mkRequestPath (clusterId c) ep Access.kEventReadRequest None)
           Access.kView]))
  /\ (forall c,
        EventPathParams.HasWildcardClusterId p = false ->
        emberAfFindServerCluster dm ep (EventPathParams.mClusterId p)
        = Some c ->
        HasValidEventPathForEndpoint ac dm ep p s
        = (Access.Check ac s
             (Access.mkRequestPath (clusterId c) ep Access.kEventReadRequest
                None)
             Access.kView =? CHIP_NO_ERROR,
           [Access.mkCall s
              (Access.mkRequestPath (clusterId c) ep Access.kEventReadRequest
                 None)
              Access.kView])).
Proof.
  intros Hf Hw.
  assert (Hcl : forall c,
             HasValidEventPathForEndpointAndCluster ac dm ep c p s
             = (grants_cluster_view ac s ep (clusterId c),
                [cluster_view_call s ep (clusterId c)])).
  { intros c. apply cluster_level_wildcard_degraded; assumption. }
  split.
  - exact Hcl.
  - intros c Hc Hfound. unfold HasValidEventPathForEndpoint.
    rewrite Hc, Hfound. apply Hcl.
Qed.

(** C9. Without event lists the existence check accepts every event
    identifier, and a concrete event over a found cluster is settled by the
    precise check alone: the subject must be granted the privilege required
    for reading that event, whether or not the cluster lists it. *)
Theorem degraded_concrete_event_is_precise_check
  (ac : Access.AccessControl) (dm : DataModel) (ep : EndpointId)
  (c : EmberAfCluster) (p : EventPathParams.t) (s : SubjectDescriptor) :
  CHIP_CONFIG_ENABLE_EVENTLIST_ATTRIBUTE = false ->
  EventPathParams.HasWildcardEventId p = false ->
  EventPathParams.HasWildcardClusterId p = false ->
  emberAfFindServerCluster dm ep (EventPathParams.mClusterId p) = Some c ->
  (forall c' e, ClusterSupportsEvent c' e = true)
  /\ HasValidEventPathForEndpoint ac dm ep p s
     = (Access.Check ac s
          (Access.mkRequestPath (clusterId c) ep Access.kEventReadRequest
             (Some (EventPathParams.mEventId p)))
          (ForReadEvent dm
             (ConcreteEventPath.mk ep (clusterId c)
                (EventPathParams.mEventId p)))
        =? CHIP_NO_ERROR,
        [Access.mkCall s
           (Access.mkRequestPath (clusterId c) ep Access.kEventReadRequest
              (Some (EventPathParams.mEventId p)))
           (ForReadEvent dm
              (ConcreteEventPath.mk ep (clusterId c)
                 (EventPathParams.mEventId p)))]).
Proof.
  intros Hf Hw Hc Hfound.
  assert (Hsup : forall c' e, ClusterSupportsEvent c' e = true).
  { intros c' e. unfold ClusterSupportsEvent. rewrite Hf. reflexivity. }
  split.
  - exact Hsup.
  - unfold HasValidEventPathForEndpoint. rewrite Hc, Hfound.
    rewrite cluster_level_concrete by exact Hw. rewrite Hsup.
    apply CanAccessEvent_run.
Qed.

(** C5. On an endpoint that is not registered the resolution answers false,
    for a wildcard as for a concrete cluster, for a wildcard as for a
    concrete event, and whatever the access-control subsystem grants. *)
Theorem absent_endpoint_has_no_valid_path
  (ac : Access.AccessControl) (dm : DataModel) (ep : EndpointId)
  (p : EventPathParams.t) (s : SubjectDescriptor) :
  lookup_contract dm ->
  emberAfFindEndpointType dm ep = None ->
  result (HasValidEventPathForEndpoint ac dm ep p s) = false.
Proof.
  intros Hdm Habsent. unfold HasValidEventPathForEndpoint.
  rewrite Habsent.
  rewrite (absent_endpoint_no_cluster dm Hdm ep _ Habsent).
  destruct (EventPathParams.HasWildcardClusterId p); reflexivity.
Qed.

(** C1 (amended). For a specifier with a concrete cluster and a concrete
    event, the resolution answers true exactly when the server-cluster
    lookup finds the cluster on the endpoint, the found cluster declares the
    event (or the build has no event lists), and the subject is granted the
    privilege required for reading that exact event. *)
Theorem concrete_path_valid_iff
  (ac : Access.AccessControl) (dm : DataModel) (ep : EndpointId)
  (p : EventPathParams.t) (s : SubjectDescriptor) :
  lookup_contract dm ->
  EventPathParams.HasWildcardClusterId p = false ->
  EventPathParams.HasWildcardEventId p = false ->
  result (HasValidEventPathForEndpoint ac dm ep p s) = true
  <-> (exists c,
         emberAfFindServerCluster dm ep (EventPathParams.mClusterId p) = Some c
         /\ (In (EventPathParams.mEventId p) (eventList c)
             \/ CHIP_CONFIG_ENABLE_EVENTLIST_ATTRIBUTE = false))
      /\ grants_event ac dm s
           (ConcreteEventPath.mk ep (EventPathParams.mClusterId p)
              (EventPathParams.mEventId p)) = true.
Proof.
  intros Hdm Hc Hw. unfold HasValidEventPathForEndpoint. rewrite Hc.
  destruct (emberAfFindServerCluster dm ep (EventPathParams.mClusterId p))
    as [c|] eqn:Hfound.
  - rewrite cluster_level_result, Hw.
    rewrite (found_cluster_id dm Hdm _ _ _ Hfound).
    rewrite andb_true_iff. unfold ClusterSupportsEvent.
    split.
    + intros [Hsup Hg]. split; [|exact Hg]. exists c. split; [reflexivity|].
      destruct CHIP_CONFIG_ENABLE_EVENTLIST_ATTRIBUTE.
      * left. apply ClusterSupportsEvent_scan_In. exact Hsup.
      * right. reflexivity.
    + intros [[c' [Heq Hex]] Hg]. injection Heq as <-. split; [|exact Hg].
      destruct CHIP_CONFIG_ENABLE_EVENTLIST_ATTRIBUTE.
      * destruct Hex as [Hin|Hfalse]; [|discriminate].
        apply ClusterSupportsEvent_scan_In. exact Hin.
      * reflexivity.
  - split.
    + discriminate.
    + intros [[c' [Heq _]] _]. discriminate.
Qed.

(** C7. For a fixed specifier and a fixed data model, an access-control
    subsystem that grants at least what another grants cannot turn a valid
    path into an invalid one. *)
Theorem widening_grants_keeps_validity
  (ac ac' : Access.AccessControl) (dm : DataModel) (ep : EndpointId)
  (p : EventPathParams.t) (s : SubjectDescriptor) :
  widens ac ac' ->
  result (HasValidEventPathForEndpoint ac dm ep p s) = true ->
  result (HasValidEventPathForEndpoint ac' dm ep p s) = true.
Proof.
  intros Hwide.
  assert (Hev : forall path,
             grants_event ac dm s path = true ->
             grants_event ac' dm s path = true).
  { intros path H. unfold grants_event in *. apply Z.eqb_eq in H.
    apply Z.eqb_eq. apply Hwide. exact H. }
  assert (Hcl : forall cid,
             grants_cluster_view ac s ep cid = true ->
             grants_cluster_view ac' s ep cid = true).
  { intros cid H. unfold grants_cluster_view in *. apply Z.eqb_eq in H.
    apply Z.eqb_eq. apply Hwide. exact H. }
  rewrite !endpoint_level_result. apply existsb_mono. intros c.
  rewrite !cluster_level_result.
  destruct (EventPathParams.HasWildcardEventId p).
  - destruct CHIP_CONFIG_ENABLE_EVENTLIST_ATTRIBUTE.
    + apply existsb_mono. intros e. apply Hev.
    + apply Hcl.
  - rewrite !andb_true_iff. intros [Hsup Hg]. split.
    + exact Hsup.
    + apply Hev. exact Hg.
Qed.
End Properties.

(** C8. For a wildcard cluster the endpoint-level helper hands every
    cluster instance of the endpoint type to the cluster-level helper,
    whatever its role: the answer is the disjunction of the cluster-level
    answers over the whole list.  A concrete cluster identifier goes through
    the server-only lookup: the answer is the cluster-level answer on the
    first server-side instance with that identifier, and false when there
    is none.  Hence, when the endpoint holds a cluster only as client-side
    instances and the cluster-level helper accepts one of them, the
    wildcard-cluster specifier is valid and the same specifier with that
    cluster's identifier is not. *)
Theorem wildcard_cluster_reaches_client_clusters {B : Build}
  (ac : Access.AccessControl) (reg : Registry)
  (required : ConcreteEventPath.t -> Access.Privilege) (ep : EndpointId)
  (et : EmberAfEndpointType) (p : EventPathParams.t) (s : SubjectDescriptor) :
  registry_find_endpoint reg ep = Some et ->
  EventPathParams.HasWildcardClusterId p = true ->
  result (HasValidEventPathForEndpoint ac
            (registry_data_model reg required) ep p s)
  = existsb
      (fun c => result (HasValidEventPathForEndpointAndCluster ac
                          (registry_data_model reg required) ep c p s))
      (cluster et)
  /\ (forall cid,
        cid <> kInvalidClusterId ->
        result (HasValidEventPathForEndpoint ac
                  (registry_data_model reg required) ep
                  (EventPathParams.mk cid (EventPathParams.mEventId p)) s)
        = match find (fun c => (clusterId c =? cid) && is_server c)
                     (cluster et) with
          | Some c =>
              result (HasValidEventPathForEndpointAndCluster ac
                        (registry_data_model reg required) ep c p s)
          | None => false
          end)
  /\ (forall c,
        In c (cluster et) ->
        clusterId c <> kInvalidClusterId ->
        (forall c', In c' (cluster et) -> clusterId c' = clusterId c ->
                    role c' = ClientCluster) ->
        result (HasValidEventPathForEndpointAndCluster ac
                  (registry_data_model reg required) ep c p s) = true ->
        result (HasValidEventPathForEndpoint ac
                  (registry_data_model reg required) ep p s) = true
        /\ result (HasValidEventPathForEndpoint ac
                     (registry_data_model reg required) ep
                     (EventPathParams.mk (clusterId c)
                        (EventPathParams.mEventId p)) s) = false).
Proof.
  intros Hep Hw.
  assert (Hwild :
            result (HasValidEventPathForEndpoint ac
                      (registry_data_model reg required) ep p s)
            = existsb
                (fun c => result (HasValidEventPathForEndpointAndCluster ac
                                    (registry_data_model reg required) ep c
                                    p s))
                (cluster et)).
  { unfold HasValidEventPathForEndpoint. rewrite Hw.
    cbn [registry_data_model emberAfFindEndpointType]. rewrite Hep.
    apply wildcard_cluster_loop_result. }
  assert (Hconc : forall cid,
             cid <> kInvalidClusterId ->
             result (HasValidEventPathForEndpoint ac
                       (registry_data_model reg required) ep
                       (EventPathParams.mk cid (EventPathParams.mEventId p))
                       s)
             = match find (fun c => (clusterId c =? cid) && is_server c)
                          (cluster et) with
               | Some c =>
                   result (HasValidEventPathForEndpointAndCluster ac
                             (registry_data_model reg required) ep c p s)
               | None => false
               end).
  { intros cid Hcid.
    unfold HasValidEventPathForEndpoint, EventPathParams.HasWildcardClusterId.
    cbn [EventPathParams.mClusterId].
    apply Z.eqb_neq in Hcid. rewrite Hcid.
    cbn [registry_data_model emberAfFindServerCluster].
    unfold registry_find_server_cluster. rewrite Hep.
    destruct (find (fun c => (clusterId c =? cid) && is_server c)
                (cluster et)); reflexivity. }
  split; [exact Hwild|]. split; [exact Hconc|].
  intros c Hin Hid Hclient Hvalid. split.
  - rewrite Hwild. apply existsb_exists. exists c. split; assumption.
  - rewrite (Hconc _ Hid).
    destruct (find (fun c0 => (clusterId c0 =? clusterId c) && is_server c0)
                (cluster et)) as [c'|] eqn:Hfind; [|reflexivity].
    apply find_some in Hfind. destruct Hfind as [Hin' Hc'].
    apply andb_true_iff in Hc'. destruct Hc' as [Hsame Hserver].
    apply Z.eqb_eq in Hsame. unfold is_server in Hserver.
    rewrite (Hclient c' Hin' Hsame) in Hserver. discriminate.
Qed.

(** ** The properties on the sample configurations *)

(** C1 as stated fails on the code: without event lists, endpoint 1 holds
    cluster 6 only; the specifier names cluster 8, event 0, and every request
    is granted.  Existence is assumed and permission is granted, yet the
    resolution answers false, because the cluster is not found. *)
Lemma concrete_path_unfound_cluster :
  @EventPathParams.HasWildcardClusterId Sample.degraded
    (EventPathParams.mk 8 0) = false
  /\ @EventPathParams.HasWildcardEventId Sample.degraded
       (EventPathParams.mk 8 0) = false
  /\ ~ (result (HasValidEventPathForEndpoint
                  (Sample.allow_all Sample.degraded)
                  (registry_data_model Sample.registry_onoff
                     Sample.view_for_all)
                  1 (EventPathParams.mk 8 0)
                  (7 : @SubjectDescriptor Sample.degraded)) = true
        <-> existence_and_permission
              (Sample.allow_all Sample.degraded)
              (registry_data_model Sample.registry_onoff Sample.view_for_all)
              (7 : @SubjectDescriptor Sample.degraded) 1
              (EventPathParams.mk 8 0)).
Proof.
  split; [reflexivity|]. split; [reflexivity|].
  intros [_ Hback].
  assert (Hclaim : existence_and_permission
                     (Sample.allow_all Sample.degraded)
                     (registry_data_model Sample.registry_onoff
                        Sample.view_for_all)
                     (7 : @SubjectDescriptor Sample.degraded) 1
                     (EventPathParams.mk 8 0)).
  { split; [right|]; reflexivity. }
  specialize (Hback Hclaim). discriminate Hback.
Qed.

Lemma concrete_path_valid_iff_witness :
  result (HasValidEventPathForEndpoint Sample.only_subject_7
            (registry_data_model Sample.registry_onoff Sample.view_for_all)
            1 (EventPathParams.mk 6 0)
            (7 : @SubjectDescriptor Sample.precise)) = true
  <-> (exists c,
         registry_find_server_cluster Sample.registry_onoff 1 6 = Some c
         /\ (In 0 (eventList c)
             \/ @CHIP_CONFIG_ENABLE_EVENTLIST_ATTRIBUTE Sample.precise = false))
      /\ grants_event Sample.only_subject_7
           (registry_data_model Sample.registry_onoff Sample.view_for_all)
           (7 : @SubjectDescriptor Sample.precise)
           (ConcreteEventPath.mk 1 6 0) = true.
Proof.
  apply (@concrete_path_valid_iff Sample.precise Sample.only_subject_7
           (registry_data_model Sample.registry_onoff Sample.view_for_all)
           1 (EventPathParams.mk 6 0) 7).
  - apply registry_lookup_contract.
  - reflexivity.
  - reflexivity.
Defined.



Lemma degraded_wildcard_event_is_coarse_check_witness :
  HasValidEventPathForEndpoint (Sample.deny_event_1 Sample.degraded)
    (registry_data_model Sample.registry_onoff Sample.view_for_all)
    1 (Sample.wildcard_event_of 6) (7 : @SubjectDescriptor Sample.degraded)
  = (true,
     [Access.mkCall (7 : @SubjectDescriptor Sample.degraded)
        (Access.mkRequestPath 6 1 Access.kEventReadRequest None)
        Access.kView]).
Proof.
  apply (proj2 (@degraded_wildcard_event_is_coarse_check Sample.degraded
                  (Sample.deny_event_1 Sample.degraded)
                  (registry_data_model Sample.registry_onoff
                     Sample.view_for_all)
                  1 (Sample.wildcard_event_of 6) 7 eq_refl eq_refl)
               Sample.onoff eq_refl eq_refl).
Defined.

(** Event 5 is not declared by cluster 6. *)
Lemma undeclared_event_rejected_unchecked_witness :
  result (HasValidEventPathForEndpointAndCluster
            (Sample.allow_all Sample.precise)
            (registry_data_model Sample.registry_onoff Sample.view_for_all)
            1 Sample.onoff (EventPathParams.mk 6 5)
            (7 : @SubjectDescriptor Sample.precise)) = false
  /\ trail (HasValidEventPathForEndpointAndCluster
              (Sample.allow_all Sample.precise)
              (registry_data_model Sample.registry_onoff Sample.view_for_all)
              1 Sample.onoff (EventPathParams.mk 6 5)
              (7 : @SubjectDescriptor Sample.precise)) = [].
Proof.
  apply (@undeclared_event_rejected_unchecked Sample.precise); reflexivity.
Defined.

(** Endpoint 2 is not registered. *)
Lemma absent_endpoint_has_no_valid_path_witness :
  result (HasValidEventPathForEndpoint (Sample.allow_all Sample.precise)
            (registry_data_model Sample.registry_onoff Sample.view_for_all)
            2 Sample.wildcard_cluster_event_0
            (7 : @SubjectDescriptor Sample.precise)) = false
  /\ result (HasValidEventPathForEndpoint (Sample.allow_all Sample.precise)
               (registry_data_model Sample.registry_onoff Sample.view_for_all)
               2 (EventPathParams.mk 6 0)
               (7 : @SubjectDescriptor Sample.precise)) = false.
Proof.
  split;
    apply (@absent_endpoint_has_no_valid_path Sample.precise);
    solve [apply registry_lookup_contract | reflexivity].
Defined.

(** Events [1; 2; 3], the first refused, the others granted: the checks are
    those for events 1 and 2. *)
Lemma wildcard_event_stops_at_first_granted_witness :
  result (HasValidEventPathForEndpointAndCluster
            (Sample.deny_event_1 Sample.precise)
            (registry_data_model Sample.registry_three_events
               Sample.view_for_all)
            1 Sample.three_events (Sample.wildcard_event_of 40)
            (7 : @SubjectDescriptor Sample.precise)) = true
  /\ trail (HasValidEventPathForEndpointAndCluster
              (Sample.deny_event_1 Sample.precise)
              (registry_data_model Sample.registry_three_events
                 Sample.view_for_all)
              1 Sample.three_events (Sample.wildcard_event_of 40)
              (7 : @SubjectDescriptor Sample.precise))
     = [Access.mkCall (7 : @SubjectDescriptor Sample.precise)
          (Access.mkRequestPath 40 1 Access.kEventReadRequest (Some 1))
          Access.kView;
        Access.mkCall (7 : @SubjectDescriptor Sample.precise)
          (Access.mkRequestPath 40 1 Access.kEventReadRequest (Some 2))
          Access.kView].
Proof.
  apply (@wildcard_event_stops_at_first_granted Sample.precise
           (Sample.deny_event_1 Sample.precise)
           (registry_data_model Sample.registry_three_events
              Sample.view_for_all)
           1 Sample.three_events (Sample.wildcard_event_of 40) 7
           [1] [3] 2).
  - reflexivity.
  - reflexivity.
  - reflexivity.
  - intros d [Hd|[]]. rewrite <- Hd. reflexivity.
  - reflexivity.
Defined.

(** Subject 7 is valid under a policy that grants subject 7 only, and stays
    valid under the policy that grants everybody. *)
Lemma widening_grants_keeps_validity_witness :
  result (HasValidEventPathForEndpoint (Sample.allow_all Sample.precise)
            (registry_data_model Sample.registry_onoff Sample.view_for_all)
            1 (Sample.wildcard_event_of 6)
            (7 : @SubjectDescriptor Sample.precise)) = true.
Proof.
  apply (@widening_grants_keeps_validity Sample.precise
           Sample.only_subject_7 (Sample.allow_all Sample.precise)).
  - intros s rp priv _. reflexivity.
  - reflexivity.
Defined.

(** Event 99 is not declared by cluster 6; without event lists the precise
    check decides. *)
Lemma degraded_concrete_event_is_precise_check_witness :
  (forall c' e, @ClusterSupportsEvent Sample.degraded c' e = true)
  /\ HasValidEventPathForEndpoint (Sample.deny_event_1 Sample.degraded)
       (registry_data_model Sample.registry_onoff Sample.view_for_all)
       1 (EventPathParams.mk 6 99) (7 : @SubjectDescriptor Sample.degraded)
     = (true,
        [Access.mkCall (7 : @SubjectDescriptor Sample.degraded)
           (Access.mkRequestPath 6 1 Access.kEventReadRequest (Some 99))
           Access.kView]).
Proof.
  apply (@degraded_concrete_event_is_precise_check Sample.degraded
           (Sample.deny_event_1 Sample.degraded)
           (registry_data_model Sample.registry_onoff Sample.view_for_all)
           1 Sample.onoff (EventPathParams.mk 6 99) 7);
    reflexivity.
Defined.

(** Endpoint 1 holds cluster 6 as a client-side instance only.  With every
    request granted the wildcard cluster is valid and cluster 6 by name is
    not; with every request refused the wildcard cluster is not valid
    either. *)
Lemma wildcard_cluster_reaches_client_clusters_witness :
  (result (HasValidEventPathForEndpoint (Sample.allow_all Sample.precise)
             (registry_data_model Sample.registry_client_only
                Sample.view_for_all)
             1 Sample.wildcard_cluster_event_0
             (7 : @SubjectDescriptor Sample.precise)) = true
   /\ result (HasValidEventPathForEndpoint (Sample.allow_all Sample.precise)
                (registry_data_model Sample.registry_client_only
                   Sample.view_for_all)
                1 (EventPathParams.mk 6 0)
                (7 : @SubjectDescriptor Sample.precise)) = false)
  /\ result (HasValidEventPathForEndpoint (Sample.deny_all Sample.precise)
               (registry_data_model Sample.registry_client_only
                  Sample.view_for_all)
               1 Sample.wildcard_cluster_event_0
               (7 : @SubjectDescriptor Sample.precise)) = false.
Proof.
  split.
  - apply (proj2 (proj2
             (@wildcard_cluster_reaches_client_clusters Sample.precise
                (Sample.allow_all Sample.precise) Sample.registry_client_only
                Sample.view_for_all 1 {| cluster := [Sample.onoff_client] |}
                Sample.wildcard_cluster_event_0 7 eq_refl eq_refl))
           Sample.onoff_client).
    + left. reflexivity.
    + discriminate.
    + intros c' [Hc'|[]] _. rewrite <- Hc'. reflexivity.
    + reflexivity.
  - rewrite (proj1
               (@wildcard_cluster_reaches_client_clusters Sample.precise
                  (Sample.deny_all Sample.precise) Sample.registry_client_only
                  Sample.view_for_all 1 {| cluster := [Sample.onoff_client] |}
                  Sample.wildcard_cluster_event_0 7 eq_refl eq_refl)).
    reflexivity.
Defined.

(** ** Linear search with early exit *)

Section UpToFirst.
Context {A : Type}.
Variable f : A -> bool.

Lemma up_to_first_app_found (l1 l2 : list A) :
  existsb f l1 = true -> up_to_first f (l1 ++ l2) = up_to_first f l1.
Proof.
  induction l1 as [|x l1 IH]; cbn [existsb app up_to_first].
  - discriminate.
  - destruct (f x); [reflexivity|]. cbn [orb]. intros H.
    rewrite (IH H). reflexivity.
Qed.

Lemma up_to_first_app_missed (l1 l2 : list A) :
  existsb f l1 = false -> up_to_first f (l1 ++ l2) = l1 ++ up_to_first f l2.
Proof.
  induction l1 as [|x l1 IH]; cbn [existsb app up_to_first].
  - reflexivity.
  - destruct (f x); [discriminate|]. cbn [orb]. intros H.
    rewrite (IH H). reflexivity.
Qed.

Lemma up_to_first_missed (l : list A) :
  existsb f l = false -> up_to_first f l = l.
Proof.
  intros H. rewrite <- (app_nil_r l) at 1.
  rewrite up_to_first_app_missed by exact H. apply app_nil_r.
Qed.

Lemma up_to_first_is_prefix (l : list A) : is_prefix (up_to_first f l) l.
Proof.
  induction l as [|x l [rest IH]]; cbn [up_to_first].
  - exists []. reflexivity.
  - destruct (f x).
    + exists l. reflexivity.
    + exists rest. cbn [app]. rewrite <- IH. reflexivity.
Qed.

Lemma up_to_first_Forall (P : A -> Prop) (l : list A) :
  Forall P l -> Forall P (up_to_first f l).
Proof.
  intros H. destruct (up_to_first_is_prefix l) as [rest Hrest].
  rewrite Hrest in H. apply Forall_app in H. apply H.
Qed.

Lemma up_to_first_length (l : list A) :
  (length (up_to_first f l) <= length l)%nat.
Proof.
  destruct (up_to_first_is_prefix l) as [rest Hrest].
  rewrite Hrest at 2. rewrite length_app. lia.
Qed.

Lemma up_to_first_found (l : list A) :
  existsb f l = true ->
  exists pre last,
    up_to_first f l = pre ++ [last]
    /\ f last = true
    /\ Forall (fun x => f x = false) pre.
Proof.
  induction l as [|x l IH]; cbn [existsb up_to_first].
  - discriminate.
  - destruct (f x) eqn:Hx.
    + intros _. exists [], x. repeat split; [exact Hx | constructor].
    + cbn [orb]. intros H. destruct (IH H) as [pre [last [Heq [Hl Hpre]]]].
      exists (x :: pre), last. rewrite Heq. repeat split.
      * exact Hl.
      * constructor; assumption.
Qed.

Lemma up_to_first_all_missed (l : list A) :
  existsb f l = false -> Forall (fun x => f x = false) l.
Proof.
  induction l as [|x l IH]; cbn [existsb].
  - constructor.
  - intros H. apply orb_false_iff in H. destruct H as [Hx Hl].
    constructor; [exact Hx | apply IH; exact Hl].
Qed.

(** A search that accepts more stops no later. *)
Lemma up_to_first_weaker (g : A -> bool) (l : list A) :
  (forall x, f x = true -> g x = true) ->
  is_prefix (up_to_first g l) (up_to_first f l).
Proof.
  intros Hfg. induction l as [|x l [rest IH]]; cbn [up_to_first].
  - exists []. reflexivity.
  - destruct (f x) eqn:Hx.
    + rewrite (Hfg x Hx). exists []. reflexivity.
    + destruct (g x).
      * exists (up_to_first f l). reflexivity.
      * exists rest. cbn [app]. rewrite <- IH. reflexivity.
Qed.
End UpToFirst.

Lemma existsb_Permutation {A : Type} (f : A -> bool) (l l' : list A) :
  Permutation l l' -> existsb f l = existsb f l'.
Proof.
  induction 1 as [|x l l' _ IH|x y l|l l' l'' _ IH1 _ IH2]; cbn [existsb].
  - reflexivity.
  - rewrite IH. reflexivity.
  - destruct (f x), (f y); reflexivity.
  - rewrite IH1. exact IH2.
Qed.

Lemma flat_map_length_le {A C : Type} (g : A -> list C) (h : A -> nat)
  (l : list A) :
  (forall x, In x l -> (length (g x) <= h x)%nat) ->
  (length (flat_map g l) <= list_sum (map h l))%nat.
Proof.
  induction l as [|x l IH]; cbn [flat_map map]; intros H.
  - apply Nat.le_refl.
  - rewrite length_app.
    assert (Hx : (length (g x) <= h x)%nat) by (apply H; left; reflexivity).
    assert (Hl : (length (flat_map g l) <= list_sum (map h l))%nat).
    { apply IH. intros y Hy. apply H. right. exact Hy. }
    change (list_sum (h x :: map h l)) with (h x + list_sum (map h l))%nat.
    lia.
Qed.

(** ** The resolution as one search *)

Section Search.
Context {B : Build}.
Variable ac : Access.AccessControl.
Variable dm : DataModel.

(** One turn of the cluster loop. *)
Lemma wildcard_cluster_loop_cons (ep : EndpointId) (p : EventPathParams.t)
  (s : SubjectDescriptor) (c : EmberAfCluster) (rest : list EmberAfCluster) :
  wildcard_cluster_loop ac dm ep p s (c :: rest)
  = if result (HasValidEventPathForEndpointAndCluster ac dm ep c p s)
    then (true, trail (HasValidEventPathForEndpointAndCluster ac dm ep c p s))
    else (result (wildcard_cluster_loop ac dm ep p s rest),
          trail (HasValidEventPathForEndpointAndCluster ac dm ep c p s)
            ++ trail (wildcard_cluster_loop ac dm ep p s rest)).
Proof.
  cbn [wildcard_cluster_loop]. unfold bind, result, trail.
  destruct (fst (HasValidEventPathForEndpointAndCluster ac dm ep c p s)).
  - cbn [ret fst snd]. rewrite app_nil_r. reflexivity.
  - reflexivity.
Qed.

(** Both branches of the endpoint-level helper run the cluster loop over the
    clusters the specifier ranges over. *)
Lemma endpoint_level_run (ep : EndpointId) (p : EventPathParams.t)
  (s : SubjectDescriptor) :
  HasValidEventPathForEndpoint ac dm ep p s
  = wildcard_cluster_loop ac dm ep p s (candidate_clusters dm ep p).
Proof.
  unfold HasValidEventPathForEndpoint, candidate_clusters.
  destruct (EventPathParams.HasWildcardClusterId p).
  - destruct (emberAfFindEndpointType dm ep); reflexivity.
  - destruct (emberAfFindServerCluster dm ep (EventPathParams.mClusterId p))
      as [c|]; [|reflexivity].
    rewrite wildcard_cluster_loop_cons. cbn [wildcard_cluster_loop].
    unfold result, trail.
    destruct (HasValidEventPathForEndpointAndCluster ac dm ep c p s)
      as [[|] t]; cbn [fst snd ret]; [|rewrite app_nil_r]; reflexivity.
Qed.

Lemma wildcard_event_loop_search (ep : EndpointId) (cid : ClusterId)
  (s : SubjectDescriptor) (events : list EventId) :
  wildcard_event_loop ac dm ep cid s events
  = (existsb (call_granted ac)
       (map (fun e => event_call dm s (ConcreteEventPath.mk ep cid e)) events),
     up_to_first (call_granted ac)
       (map (fun e => event_call dm s (ConcreteEventPath.mk ep cid e)) events)).
Proof.
  induction events as [|e rest IH].
  - reflexivity.
  - rewrite wildcard_event_loop_cons, IH.
    cbn [map existsb up_to_first result trail fst snd].
    change (grants_event ac dm s (ConcreteEventPath.mk ep cid e))
      with (call_granted ac
              (event_call dm s (ConcreteEventPath.mk ep cid e))).
    destruct (call_granted ac
                (event_call dm s (ConcreteEventPath.mk ep cid e)));
      reflexivity.
Qed.

Lemma cluster_level_search (ep : EndpointId) (c : EmberAfCluster)
  (p : EventPathParams.t) (s : SubjectDescriptor) :
  HasValidEventPathForEndpointAndCluster ac dm ep c p s
  = (existsb (call_granted ac) (calls_for_cluster dm s ep p c),
     up_to_first (call_granted ac) (calls_for_cluster dm s ep p c)).
Proof.
  unfold calls_for_cluster, events_to_check, degraded_call.
  destruct (EventPathParams.HasWildcardEventId p) eqn:Hw.
  - destruct CHIP_CONFIG_ENABLE_EVENTLIST_ATTRIBUTE eqn:Hf.
    + rewrite cluster_level_wildcard_precise by assumption.
      apply wildcard_event_loop_search.
    + rewrite cluster_level_wildcard_degraded by assumption.
      cbn [existsb up_to_first].
      change (call_granted ac (cluster_view_call s ep (clusterId c)))
        with (grants_cluster_view ac s ep (clusterId c)).
      destruct (grants_cluster_view ac s ep (clusterId c)); reflexivity.
  - rewrite cluster_level_concrete by assumption.
    unfold ClusterSupportsEvent.
    rewrite ClusterSupportsEvent_scan_existsb.
    fold (declares c (EventPathParams.mEventId p)).
    rewrite CanAccessEvent_run.
    change (grants_event ac dm s
              (ConcreteEventPath.mk ep (clusterId c)
                 (EventPathParams.mEventId p)))
      with (call_granted ac
              (event_call dm s
                 (ConcreteEventPath.mk ep (clusterId c)
                    (EventPathParams.mEventId p)))).
    destruct CHIP_CONFIG_ENABLE_EVENTLIST_ATTRIBUTE.
    + destruct (declares c (EventPathParams.mEventId p));
        cbn [map existsb up_to_first]; [|reflexivity].
      destruct (call_granted ac
                  (event_call dm s
                     (ConcreteEventPath.mk ep (clusterId c)
                        (EventPathParams.mEventId p)))); reflexivity.
    + cbn [existsb up_to_first].
      destruct (call_granted ac
                  (event_call dm s
                     (ConcreteEventPath.mk ep (clusterId c)
                        (EventPathParams.mEventId p)))); reflexivity.
Qed.

Lemma wildcard_cluster_loop_search (ep : EndpointId) (p : EventPathParams.t)
  (s : SubjectDescriptor) (clusters : list EmberAfCluster) :
  wildcard_cluster_loop ac dm ep p s clusters
  = (existsb (call_granted ac)
       (flat_map (calls_for_cluster dm s ep p) clusters),
     up_to_first (call_granted ac)
       (flat_map (calls_for_cluster dm s ep p) clusters)).
Proof.
  induction clusters as [|c rest IH].
  - reflexivity.
  - rewrite wildcard_cluster_loop_cons, IH, cluster_level_search.
    cbn [flat_map result trail fst snd]. rewrite existsb_app.
    destruct (existsb (call_granted ac) (calls_for_cluster dm s ep p c))
      eqn:Hc.
    + rewrite up_to_first_app_found by exact Hc. reflexivity.
    + rewrite up_to_first_app_missed by exact Hc.
      rewrite (up_to_first_missed _ _ Hc). reflexivity.
Qed.

(** The resolution is a search through the planned checks that stops at the
    first granted one. *)
Lemma resolution_search (ep : EndpointId) (p : EventPathParams.t)
  (s : SubjectDescriptor) :
  HasValidEventPathForEndpoint ac dm ep p s
  = (existsb (call_granted ac) (planned_calls dm s ep p),
     up_to_first (call_granted ac) (planned_calls dm s ep p)).
Proof.
  rewrite endpoint_level_run. apply wildcard_cluster_loop_search.
Qed.
End Search.

Lemma existsb_map_compose {A C : Type} (f : C -> bool) (k : A -> C)
  (l : list A) :
  existsb f (map k l) = existsb (fun x => f (k x)) l.
Proof.
  induction l as [|x l IH]; cbn [map existsb].
  - reflexivity.
  - rewrite IH. reflexivity.
Qed.

Lemma up_to_first_map {A C : Type} (f : C -> bool) (k : A -> C) (l : list A) :
  up_to_first f (map k l) = map k (up_to_first (fun x => f (k x)) l).
Proof.
  induction l as [|x l IH]; cbn [map up_to_first].
  - reflexivity.
  - rewrite IH. destruct (f (k x)); reflexivity.
Qed.

Section PlannedCalls.
Context {B : Build}.
Variable dm : DataModel.

Lemma planned_calls_precise (s : SubjectDescriptor) (ep : EndpointId)
  (p : EventPathParams.t) :
  CHIP_CONFIG_ENABLE_EVENTLIST_ATTRIBUTE = true ->
  planned_calls dm s ep p = map (event_call dm s) (paths_to_check dm ep p).
Proof.
  intros Hf. unfold planned_calls, paths_to_check.
  induction (candidate_clusters dm ep p) as [|c cs IH]; cbn [flat_map].
  - reflexivity.
  - rewrite map_app, <- IH. unfold calls_for_cluster at 1.
    rewrite Hf, map_map. reflexivity.
Qed.

Lemma planned_calls_degraded (s : SubjectDescriptor) (ep : EndpointId)
  (p : EventPathParams.t) :
  CHIP_CONFIG_ENABLE_EVENTLIST_ATTRIBUTE = false ->
  planned_calls dm s ep p
  = map (degraded_call dm s ep p) (candidate_clusters dm ep p).
Proof.
  intros Hf. unfold planned_calls.
  induction (candidate_clusters dm ep p) as [|c cs IH]; cbn [flat_map map].
  - reflexivity.
  - rewrite IH. unfold calls_for_cluster at 1. rewrite Hf. reflexivity.
Qed.

Lemma call_granted_degraded_call (ac : Access.AccessControl)
  (s : SubjectDescriptor) (ep : EndpointId) (p : EventPathParams.t)
  (c : EmberAfCluster) :
  call_granted ac (degraded_call dm s ep p c) = degraded_grant ac dm s ep p c.
Proof.
  unfold degraded_call, degraded_grant.
  destruct (EventPathParams.HasWildcardEventId p); reflexivity.
Qed.

Lemma events_to_check_declared (c : EmberAfCluster) (p : EventPathParams.t)
  (e : EventId) :
  In e (events_to_check c p) -> In e (eventList c).
Proof.
  unfold events_to_check.
  destruct (EventPathParams.HasWildcardEventId p).
  - intros H. exact H.
  - destruct (declares c (EventPathParams.mEventId p)) eqn:Hd.
    + intros [<-|[]]. unfold declares in Hd. apply existsb_exists in Hd.
      destruct Hd as [x [Hin Heq]]. apply Z.eqb_eq in Heq. subst x.
      exact Hin.
    + intros [].
Qed.

Lemma calls_for_cluster_length (s : SubjectDescriptor) (ep : EndpointId)
  (p : EventPathParams.t) (c : EmberAfCluster) :
  (length (calls_for_cluster dm s ep p c) <= checks_per_cluster p c)%nat.
Proof.
  unfold calls_for_cluster, checks_per_cluster, events_to_check, eventCount.
  destruct CHIP_CONFIG_ENABLE_EVENTLIST_ATTRIBUTE.
  - rewrite length_map.
    destruct (EventPathParams.HasWildcardEventId p); cbn [andb].
    + apply Nat.le_refl.
    + destruct (declares c (EventPathParams.mEventId p)); cbn [length]; lia.
  - rewrite andb_false_r. apply Nat.le_refl.
Qed.
End PlannedCalls.

Lemma grants_event_same_requirements {B : Build} (ac : Access.AccessControl)
  (dm dm' : DataModel) (s : SubjectDescriptor) (path : ConcreteEventPath.t) :
  ForReadEvent dm path = ForReadEvent dm' path ->
  grants_event ac dm s path = grants_event ac dm' s path.
Proof. intros H. unfold grants_event. rewrite H. reflexivity. Qed.

(** The registry model lists the clusters its server lookup finds. *)
Lemma registry_found_clusters_listed (reg : Registry)
  (required : ConcreteEventPath.t -> Access.Privilege) (ep : EndpointId) :
  found_clusters_listed (registry_data_model reg required) ep.
Proof.
  intros cid c. cbn [registry_data_model emberAfFindServerCluster
                     emberAfFindEndpointType].
  unfold registry_find_server_cluster.
  destruct (registry_find_endpoint reg ep) as [et|]; [|discriminate].
  intros Hfind. apply find_some in Hfind. exists et.
  split; [reflexivity | apply Hfind].
Qed.

(** ** Further properties of the helpers *)

Section FurtherProperties.
Context {B : Build}.

(** X1. The existence check accepts an event identifier exactly when the
    build has no event lists or the cluster's event list holds it. *)
Theorem cluster_supports_event_iff (c : EmberAfCluster) (e : EventId) :
  ClusterSupportsEvent c e = true
  <-> CHIP_CONFIG_ENABLE_EVENTLIST_ATTRIBUTE = false \/ In e (eventList c).
Proof.
  unfold ClusterSupportsEvent.
  destruct CHIP_CONFIG_ENABLE_EVENTLIST_ATTRIBUTE.
  - rewrite ClusterSupportsEvent_scan_In. split.
    + intros H. right. exact H.
    + intros [H|H]; [discriminate | exact H].
  - split; [intros _; left|]; reflexivity.
Qed.

(** X2. With event lists, the whole resolution is one ordered search: the
    concrete paths are those of each cluster ranged over, cluster after
    cluster and event after event; the answer tells whether one of them is
    granted, and the checks performed are those of the paths up to and
    including the first granted one. *)
Theorem precise_resolution_is_ordered_search
  (ac : Access.AccessControl) (dm : DataModel) (ep : EndpointId)
  (p : EventPathParams.t) (s : SubjectDescriptor) :
  CHIP_CONFIG_ENABLE_EVENTLIST_ATTRIBUTE = true ->
  result (HasValidEventPathForEndpoint ac dm ep p s)
  = existsb (grants_event ac dm s) (paths_to_check dm ep p)
  /\ trail (HasValidEventPathForEndpoint ac dm ep p s)
     = map (event_call dm s)
           (up_to_first (grants_event ac dm s) (paths_to_check dm ep p)).
Proof.
  intros Hf. rewrite resolution_search.
  rewrite (planned_calls_precise dm s ep p Hf).
  cbn [result trail fst snd]. split.
  - exact (existsb_map_compose (call_granted ac) (event_call dm s) _).
  - exact (up_to_first_map (call_granted ac) (event_call dm s) _).
Qed.

(** X3. Without event lists, the resolution makes one check per cluster
    ranged over, in order (the coarse View check for a wildcard event, the
    precise check of the named event otherwise), and stops at the first
    granted one. *)
Theorem degraded_resolution_is_ordered_search
  (ac : Access.AccessControl) (dm : DataModel) (ep : EndpointId)
  (p : EventPathParams.t) (s : SubjectDescriptor) :
  CHIP_CONFIG_ENABLE_EVENTLIST_ATTRIBUTE = false ->
  result (HasValidEventPathForEndpoint ac dm ep p s)
  = existsb (degraded_grant ac dm s ep p) (candidate_clusters dm ep p)
  /\ trail (HasValidEventPathForEndpoint ac dm ep p s)
     = map (degraded_call dm s ep p)
           (up_to_first (degraded_grant ac dm s ep p)
              (candidate_clusters dm ep p)).
Proof.
  intros Hf. rewrite resolution_search.
  rewrite (planned_calls_degraded dm s ep p Hf).
  cbn [result trail fst snd]. split.
  - rewrite existsb_map_compose. apply existsb_ext_in.
    intros c _. apply call_granted_degraded_call.
  - rewrite up_to_first_map. f_equal.
    induction (candidate_clusters dm ep p) as [|c cs IH];
      cbn [up_to_first].
    + reflexivity.
    + rewrite call_granted_degraded_call, IH. reflexivity.
Qed.

(** X4. Every check the resolution performs is made for the subject it was
    given, is an event-read request, names the endpoint under resolution,
    and names the identifier of one of the clusters ranged over. *)
Theorem checks_stay_within_request
  (ac : Access.AccessControl) (dm : DataModel) (ep : EndpointId)
  (p : EventPathParams.t) (s : SubjectDescriptor) :
  Forall (fun call =>
            Access.call_subject call = s
            /\ Access.endpoint (Access.call_path call) = ep
            /\ Access.requestType (Access.call_path call)
               = Access.kEventReadRequest
            /\ exists c, In c (candidate_clusters dm ep p)
                         /\ Access.cluster (Access.call_path call)
                            = clusterId c)
         (trail (HasValidEventPathForEndpoint ac dm ep p s)).
Proof.
  rewrite resolution_search. cbn [trail snd]. apply up_to_first_Forall.
  apply Forall_forall. intros call Hcall. unfold planned_calls in Hcall.
  apply in_flat_map in Hcall. destruct Hcall as [c [Hc Hin]].
  unfold calls_for_cluster in Hin.
  destruct CHIP_CONFIG_ENABLE_EVENTLIST_ATTRIBUTE.
  - apply in_map_iff in Hin. destruct Hin as [e [<- _]].
    repeat split. exists c. split; [exact Hc | reflexivity].
  - destruct Hin as [<-|[]]. unfold degraded_call.
    destruct (EventPathParams.HasWildcardEventId p);
      (repeat split; exists c; split; [exact Hc | reflexivity]).
Qed.

(** X5. With event lists, permission is only ever asked for an event that a
    cluster ranged over declares, with that event as the entity and at the
    privilege required for reading it. *)
Theorem precise_checks_name_declared_events
  (ac : Access.AccessControl) (dm : DataModel) (ep : EndpointId)
  (p : EventPathParams.t) (s : SubjectDescriptor) :
  CHIP_CONFIG_ENABLE_EVENTLIST_ATTRIBUTE = true ->
  Forall (fun call =>
            exists c e,
              In c (candidate_clusters dm ep p)
              /\ In e (eventList c)
              /\ call = Access.mkCall s
                          (Access.mkRequestPath (clusterId c) ep
                             Access.kEventReadRequest (Some e))
                          (ForReadEvent dm
                             (ConcreteEventPath.mk ep (clusterId c) e)))
         (trail (HasValidEventPathForEndpoint ac dm ep p s)).
Proof.
  intros Hf. rewrite resolution_search. cbn [trail snd].
  apply up_to_first_Forall.
  apply Forall_forall. intros call Hcall. unfold planned_calls in Hcall.
  apply in_flat_map in Hcall. destruct Hcall as [c [Hc Hin]].
  unfold calls_for_cluster in Hin. rewrite Hf in Hin.
  apply in_map_iff in Hin. destruct Hin as [e [<- He]].
  exists c, e. split; [exact Hc|]. split; [|reflexivity].
  apply (events_to_check_declared c p e He).
Qed.

(** X6. The number of checks is bounded: for a wildcard event with event
    lists, by the number of events the clusters ranged over declare;
    otherwise by the number of clusters ranged over. *)
Theorem check_count_bounded
  (ac : Access.AccessControl) (dm : DataModel) (ep : EndpointId)
  (p : EventPathParams.t) (s : SubjectDescriptor) :
  (length (trail (HasValidEventPathForEndpoint ac dm ep p s))
   <= max_checks dm ep p)%nat.
Proof.
  rewrite resolution_search. cbn [trail snd].
  apply Nat.le_trans with (length (planned_calls dm s ep p)).
  - apply up_to_first_length.
  - unfold planned_calls, max_checks. apply flat_map_length_le.
    intros c _. apply calls_for_cluster_length.
Qed.

(** X7. The answer agrees with the checks performed: a true answer means
    the last check was granted and every earlier one refused; a false
    answer means every check performed was refused. *)
Theorem answer_agrees_with_checks
  (ac : Access.AccessControl) (dm : DataModel) (ep : EndpointId)
  (p : EventPathParams.t) (s : SubjectDescriptor) :
  outcome_matches_trail ac (HasValidEventPathForEndpoint ac dm ep p s).
Proof.
  rewrite resolution_search. unfold outcome_matches_trail.
  cbn [result trail fst snd].
  destruct (existsb (call_granted ac) (planned_calls dm s ep p)) eqn:Hex.
  - apply up_to_first_found. exact Hex.
  - rewrite (up_to_first_missed _ _ Hex).
    apply up_to_first_all_missed. exact Hex.
Qed.

(** X8. When the specifier ranges over no cluster (the endpoint is not
    registered, has no cluster, or the named cluster is not found) the
    answer is false and no check is performed. *)
Theorem no_cluster_no_check
  (ac : Access.AccessControl) (dm : DataModel) (ep : EndpointId)
  (p : EventPathParams.t) (s : SubjectDescriptor) :
  candidate_clusters dm ep p = [] ->
  result (HasValidEventPathForEndpoint ac dm ep p s) = false
  /\ trail (HasValidEventPathForEndpoint ac dm ep p s) = [].
Proof.
  intros Hnone. rewrite endpoint_level_run, Hnone. split; reflexivity.
Qed.

(** X9. A false answer is reached only after every planned check has been
    made: nothing is skipped. *)
Theorem false_answer_made_every_check
  (ac : Access.AccessControl) (dm : DataModel) (ep : EndpointId)
  (p : EventPathParams.t) (s : SubjectDescriptor) :
  result (HasValidEventPathForEndpoint ac dm ep p s) = false ->
  trail (HasValidEventPathForEndpoint ac dm ep p s) = planned_calls dm s ep p.
Proof.
  rewrite resolution_search. cbn [result trail fst snd].
  apply up_to_first_missed.
Qed.
End FurtherProperties.

Section OrderAndGenerality.
Context {B : Build}.

(** X10. The answer of the cluster-level helper does not depend on the
    order in which the cluster lists its events. *)
Theorem event_order_does_not_change_answer
  (ac : Access.AccessControl) (dm : DataModel) (ep : EndpointId)
  (c c' : EmberAfCluster) (p : EventPathParams.t) (s : SubjectDescriptor) :
  clusterId c = clusterId c' ->
  Permutation (eventList c) (eventList c') ->
  result (HasValidEventPathForEndpointAndCluster ac dm ep c p s)
  = result (HasValidEventPathForEndpointAndCluster ac dm ep c' p s).
Proof.
  intros Hid Hperm. rewrite !cluster_level_result, Hid.
  unfold ClusterSupportsEvent. rewrite !ClusterSupportsEvent_scan_existsb.
  rewrite (existsb_Permutation
             (fun ev => ev =? EventPathParams.mEventId p) _ _ Hperm).
  rewrite (existsb_Permutation
             (fun e => grants_event ac dm s
                         (ConcreteEventPath.mk ep (clusterId c') e))
             _ _ Hperm).
  reflexivity.
Qed.

(** X11. For a wildcard cluster, the answer does not depend on the order in
    which the endpoint type lists its clusters. *)
Theorem cluster_order_does_not_change_answer
  (ac : Access.AccessControl) (dm dm' : DataModel) (ep : EndpointId)
  (et et' : EmberAfEndpointType) (p : EventPathParams.t)
  (s : SubjectDescriptor) :
  EventPathParams.HasWildcardClusterId p = true ->
  emberAfFindEndpointType dm ep = Some et ->
  emberAfFindEndpointType dm' ep = Some et' ->
  Permutation (cluster et) (cluster et') ->
  (forall path, ForReadEvent dm path = ForReadEvent dm' path) ->
  result (HasValidEventPathForEndpoint ac dm ep p s)
  = result (HasValidEventPathForEndpoint ac dm' ep p s).
Proof.
  intros Hw Het Het' Hperm Hreq. rewrite !endpoint_level_result.
  unfold candidate_clusters. rewrite Hw, Het, Het'.
  rewrite <- (existsb_Permutation _ _ _ Hperm).
  apply existsb_ext_in. intros c _. rewrite !cluster_level_result.
  rewrite (grants_event_same_requirements ac dm dm' s _ (Hreq _)).
  destruct (EventPathParams.HasWildcardEventId p); [|reflexivity].
  destruct CHIP_CONFIG_ENABLE_EVENTLIST_ATTRIBUTE; [|reflexivity].
  apply existsb_ext_in. intros e _.
  apply grants_event_same_requirements, Hreq.
Qed.

(** X12. The event loop over a list in two parts is the loop over the first
    part, continued over the second only if the first yields nothing. *)
Theorem wildcard_event_loop_app
  (ac : Access.AccessControl) (dm : DataModel) (ep : EndpointId)
  (cid : ClusterId) (s : SubjectDescriptor) (l1 l2 : list EventId) :
  wildcard_event_loop ac dm ep cid s (l1 ++ l2)
  = if result (wildcard_event_loop ac dm ep cid s l1)
    then wildcard_event_loop ac dm ep cid s l1
    else (result (wildcard_event_loop ac dm ep cid s l2),
          trail (wildcard_event_loop ac dm ep cid s l1)
            ++ trail (wildcard_event_loop ac dm ep cid s l2)).
Proof.
  rewrite !wildcard_event_loop_search, map_app, existsb_app.
  cbn [result trail fst snd].
  destruct (existsb (call_granted ac)
              (map (fun e => event_call dm s (ConcreteEventPath.mk ep cid e))
                   l1)) eqn:H1.
  - rewrite up_to_first_app_found by exact H1. reflexivity.
  - rewrite up_to_first_app_missed by exact H1.
    rewrite (up_to_first_missed _ _ H1). reflexivity.
Qed.

(** X13. Replacing a concrete cluster by a wildcard keeps a valid path
    valid, and so does replacing a concrete event by a wildcard when the
    build has event lists. *)
Theorem generalizing_specifier_keeps_validity
  (ac : Access.AccessControl) (dm : DataModel) (ep : EndpointId)
  (p p' : EventPathParams.t) (s : SubjectDescriptor) :
  found_clusters_listed dm ep ->
  generalizes p p' ->
  CHIP_CONFIG_ENABLE_EVENTLIST_ATTRIBUTE = true
  \/ EventPathParams.mEventId p' = EventPathParams.mEventId p ->
  result (HasValidEventPathForEndpoint ac dm ep p s) = true ->
  result (HasValidEventPathForEndpoint ac dm ep p' s) = true.
Proof.
  intros Hlisted [Hcl Hev] Hmode.
  assert (Hsame : EventPathParams.mEventId p' = EventPathParams.mEventId p ->
                  forall c,
                    result (HasValidEventPathForEndpointAndCluster ac dm ep c
                              p' s)
                    = result (HasValidEventPathForEndpointAndCluster ac dm ep c
                                p s)).
  { intros Heq c. rewrite !cluster_level_result.
    unfold EventPathParams.HasWildcardEventId. rewrite Heq. reflexivity. }
  assert (Hstep : forall c,
             result (HasValidEventPathForEndpointAndCluster ac dm ep c p s)
             = true ->
             result (HasValidEventPathForEndpointAndCluster ac dm ep c p' s)
             = true).
  { intros c Hc. destruct Hmode as [Hf|Heq].
    - destruct Hev as [Hw'|Heq]; [|rewrite (Hsame Heq c); exact Hc].
      rewrite cluster_level_result, Hw', Hf.
      rewrite cluster_level_result, Hf in Hc.
      destruct (EventPathParams.HasWildcardEventId p); [exact Hc|].
      apply andb_true_iff in Hc. destruct Hc as [Hsup Hg].
      unfold ClusterSupportsEvent in Hsup. rewrite Hf in Hsup.
      apply ClusterSupportsEvent_scan_In in Hsup.
      apply existsb_exists. exists (EventPathParams.mEventId p).
      split; assumption.
    - rewrite (Hsame Heq c). exact Hc. }
  assert (Hincl : forall c,
             In c (candidate_clusters dm ep p) ->
             In c (candidate_clusters dm ep p')).
  { intros c. unfold candidate_clusters. destruct Hcl as [Hw'|Heq].
    - rewrite Hw'. destruct (EventPathParams.HasWildcardClusterId p).
      + intros H. exact H.
      + destruct (emberAfFindServerCluster dm ep
                    (EventPathParams.mClusterId p)) as [c0|] eqn:Hfound.
        * intros [<-|[]]. destruct (Hlisted _ _ Hfound) as [et [Het Hin]].
          rewrite Het. exact Hin.
        * intros [].
    - unfold EventPathParams.HasWildcardClusterId. rewrite Heq.
      intros H. exact H. }
  rewrite !endpoint_level_result, !existsb_exists.
  intros [c [Hin Hc]]. exists c. split; [apply Hincl | apply Hstep]; assumption.
Qed.

(** X14. An access-control subsystem that grants at least what another
    grants is asked a first part of the checks the other is asked: granting
    more never costs more checks. *)
Theorem widening_grants_never_adds_checks
  (ac ac' : Access.AccessControl) (dm : DataModel) (ep : EndpointId)
  (p : EventPathParams.t) (s : SubjectDescriptor) :
  widens ac ac' ->
  is_prefix (trail (HasValidEventPathForEndpoint ac' dm ep p s))
            (trail (HasValidEventPathForEndpoint ac dm ep p s)).
Proof.
  intros Hwide. rewrite !resolution_search. cbn [trail snd].
  apply up_to_first_weaker. intros call Hcall. unfold call_granted in *.
  apply Z.eqb_eq in Hcall. apply Z.eqb_eq. apply Hwide. exact Hcall.
Qed.

(** X15. For a wildcard cluster, the clusters of the endpoint type are
    tried in stored order and the first one with a valid path ends the
    loop: the checks performed are those of the clusters before it, then
    its own; none is performed for the clusters after it. *)
Theorem wildcard_cluster_stops_at_first_valid
  (ac : Access.AccessControl) (dm : DataModel) (ep : EndpointId)
  (et : EmberAfEndpointType) (p : EventPathParams.t) (s : SubjectDescriptor)
  (rejected rest : list EmberAfCluster) (c : EmberAfCluster) :
  EventPathParams.HasWildcardClusterId p = true ->
  emberAfFindEndpointType dm ep = Some et ->
  cluster et = rejected ++ c :: rest ->
  (forall r, In r rejected ->
     result (HasValidEventPathForEndpointAndCluster ac dm ep r p s) = false) ->
  result (HasValidEventPathForEndpointAndCluster ac dm ep c p s) = true ->
  result (HasValidEventPathForEndpoint ac dm ep p s) = true
  /\ trail (HasValidEventPathForEndpoint ac dm ep p s)
     = flat_map
         (fun r =>
            trail (HasValidEventPathForEndpointAndCluster ac dm ep r p s))
         rejected
       ++ trail (HasValidEventPathForEndpointAndCluster ac dm ep c p s).
Proof.
  intros Hw Het Hlist Hrej Hc. unfold HasValidEventPathForEndpoint.
  rewrite Hw, Het, Hlist. clear Hlist.
  induction rejected as [|r rs IH]; cbn [app flat_map].
  - rewrite wildcard_cluster_loop_cons, Hc. split; reflexivity.
  - rewrite wildcard_cluster_loop_cons.
    rewrite (Hrej r) by (left; reflexivity).
    destruct IH as [IHr IHt].
    { intros r' Hr'. apply Hrej. right. exact Hr'. }
    cbn [result trail fst snd] in *. rewrite IHr, IHt, app_assoc.
    split; reflexivity.
Qed.
End OrderAndGenerality.

(** ** The further properties on the sample configurations *)

(** Endpoint 1 holds cluster 6 (event 0) then cluster 40 (events 1, 2, 3);
    only events 2 and 3 are granted: three checks, the third granted. *)
Lemma precise_resolution_is_ordered_search_witness :
  result (HasValidEventPathForEndpoint
            (MoreSamples.only_events_2_3 Sample.precise)
            (registry_data_model Sample.registry_three_events
               Sample.view_for_all)
            1 MoreSamples.wildcard_cluster_and_event
            (7 : @SubjectDescriptor Sample.precise)) = true
  /\ trail (HasValidEventPathForEndpoint
              (MoreSamples.only_events_2_3 Sample.precise)
              (registry_data_model Sample.registry_three_events
                 Sample.view_for_all)
              1 MoreSamples.wildcard_cluster_and_event
              (7 : @SubjectDescriptor Sample.precise))
     = [Access.mkCall (7 : @SubjectDescriptor Sample.precise)
          (Access.mkRequestPath 6 1 Access.kEventReadRequest (Some 0))
          Access.kView;
        Access.mkCall (7 : @SubjectDescriptor Sample.precise)
          (Access.mkRequestPath 40 1 Access.kEventReadRequest (Some 1))
          Access.kView;
        Access.mkCall (7 : @SubjectDescriptor Sample.precise)
          (Access.mkRequestPath 40 1 Access.kEventReadRequest (Some 2))
          Access.kView].
Proof.
  destruct (@precise_resolution_is_ordered_search Sample.precise
              (MoreSamples.only_events_2_3 Sample.precise)
              (registry_data_model Sample.registry_three_events
                 Sample.view_for_all)
              1 MoreSamples.wildcard_cluster_and_event 7 eq_refl)
    as [Hresult Htrail].
  rewrite Hresult, Htrail. split; reflexivity.
Defined.

(** The same endpoint without event lists, every request refused: one
    coarse check per cluster. *)
Lemma degraded_resolution_is_ordered_search_witness :
  result (HasValidEventPathForEndpoint (Sample.deny_all Sample.degraded)
            (registry_data_model Sample.registry_three_events
               Sample.view_for_all)
            1 MoreSamples.wildcard_cluster_and_event
            (7 : @SubjectDescriptor Sample.degraded)) = false
  /\ trail (HasValidEventPathForEndpoint (Sample.deny_all Sample.degraded)
              (registry_data_model Sample.registry_three_events
                 Sample.view_for_all)
              1 MoreSamples.wildcard_cluster_and_event
              (7 : @SubjectDescriptor Sample.degraded))
     = [Access.mkCall (7 : @SubjectDescriptor Sample.degraded)
          (Access.mkRequestPath 6 1 Access.kEventReadRequest None)
          Access.kView;
        Access.mkCall (7 : @SubjectDescriptor Sample.degraded)
          (Access.mkRequestPath 40 1 Access.kEventReadRequest None)
          Access.kView].
Proof.
  destruct (@degraded_resolution_is_ordered_search Sample.degraded
              (Sample.deny_all Sample.degraded)
              (registry_data_model Sample.registry_three_events
                 Sample.view_for_all)
              1 MoreSamples.wildcard_cluster_and_event 7 eq_refl)
    as [Hresult Htrail].
  rewrite Hresult, Htrail. split; reflexivity.
Defined.

Lemma precise_checks_name_declared_events_witness :
  Forall (fun call =>
            exists c e,
              In c [Sample.onoff; Sample.three_events]
              /\ In e (eventList c)
              /\ call = Access.mkCall (7 : @SubjectDescriptor Sample.precise)
                          (Access.mkRequestPath (clusterId c) 1
                             Access.kEventReadRequest (Some e))
                          Access.kView)
         (trail (HasValidEventPathForEndpoint
                   (MoreSamples.only_events_2_3 Sample.precise)
                   (registry_data_model Sample.registry_three_events
                      Sample.view_for_all)
                   1 MoreSamples.wildcard_cluster_and_event
                   (7 : @SubjectDescriptor Sample.precise))).
Proof.
  apply (@precise_checks_name_declared_events Sample.precise
           (MoreSamples.only_events_2_3 Sample.precise)
           (registry_data_model Sample.registry_three_events
              Sample.view_for_all)
           1 MoreSamples.wildcard_cluster_and_event 7).
  reflexivity.
Defined.

(** Endpoint 1 does not serve cluster 8. *)
Lemma no_cluster_no_check_witness :
  result (HasValidEventPathForEndpoint (Sample.allow_all Sample.degraded)
            (registry_data_model Sample.registry_onoff Sample.view_for_all)
            1 (Sample.wildcard_event_of 8)
            (7 : @SubjectDescriptor Sample.degraded)) = false
  /\ trail (HasValidEventPathForEndpoint (Sample.allow_all Sample.degraded)
              (registry_data_model Sample.registry_onoff Sample.view_for_all)
              1 (Sample.wildcard_event_of 8)
              (7 : @SubjectDescriptor Sample.degraded)) = [].
Proof.
  apply (@no_cluster_no_check Sample.degraded). reflexivity.
Defined.

(** Every request refused: the four declared events are all checked. *)
Lemma false_answer_made_every_check_witness :
  trail (HasValidEventPathForEndpoint (Sample.deny_all Sample.precise)
           (registry_data_model Sample.registry_three_events
              Sample.view_for_all)
           1 MoreSamples.wildcard_cluster_and_event
           (7 : @SubjectDescriptor Sample.precise))
  = map (fun ce =>
           Access.mkCall (7 : @SubjectDescriptor Sample.precise)
             (Access.mkRequestPath (fst ce) 1 Access.kEventReadRequest
                (Some (snd ce)))
             Access.kView)
        [(6, 0); (40, 1); (40, 2); (40, 3)].
Proof.
  apply (@false_answer_made_every_check Sample.precise
           (Sample.deny_all Sample.precise)
           (registry_data_model Sample.registry_three_events
              Sample.view_for_all)
           1 MoreSamples.wildcard_cluster_and_event 7).
  reflexivity.
Defined.

(** Events [1; 2; 3] and [3; 1; 2], event 3 alone granted. *)
Lemma event_order_does_not_change_answer_witness :
  result (HasValidEventPathForEndpointAndCluster
            (MoreSamples.only_event_3 Sample.precise)
            (registry_data_model Sample.registry_three_events
               Sample.view_for_all)
            1 Sample.three_events (Sample.wildcard_event_of 40)
            (7 : @SubjectDescriptor Sample.precise))
  = result (HasValidEventPathForEndpointAndCluster
              (MoreSamples.only_event_3 Sample.precise)
              (registry_data_model Sample.registry_three_events
                 Sample.view_for_all)
              1 MoreSamples.three_events_reordered (Sample.wildcard_event_of 40)
              (7 : @SubjectDescriptor Sample.precise)).
Proof.
  apply (@event_order_does_not_change_answer Sample.precise).
  - reflexivity.
  - apply Permutation_sym.
    apply (Permutation_cons_app [1; 2] [] 3). apply Permutation_refl.
Defined.

Lemma cluster_order_does_not_change_answer_witness :
  result (HasValidEventPathForEndpoint
            (MoreSamples.only_event_3 Sample.precise)
            (registry_data_model Sample.registry_three_events
               Sample.view_for_all)
            1 MoreSamples.wildcard_cluster_and_event
            (7 : @SubjectDescriptor Sample.precise))
  = result (HasValidEventPathForEndpoint
              (MoreSamples.only_event_3 Sample.precise)
              (registry_data_model MoreSamples.registry_three_events_swapped
                 Sample.view_for_all)
              1 MoreSamples.wildcard_cluster_and_event
              (7 : @SubjectDescriptor Sample.precise)).
Proof.
  apply (@cluster_order_does_not_change_answer Sample.precise
           (MoreSamples.only_event_3 Sample.precise)
           (registry_data_model Sample.registry_three_events
              Sample.view_for_all)
           (registry_data_model MoreSamples.registry_three_events_swapped
              Sample.view_for_all)
           1 {| cluster := [Sample.onoff; Sample.three_events] |}
           {| cluster := [Sample.three_events; Sample.onoff] |}).
  - reflexivity.
  - reflexivity.
  - reflexivity.
  - apply perm_swap.
  - intros path. reflexivity.
Defined.

(** Cluster 6, event 0 is valid for subject 7; so is the specifier with
    both identifiers replaced by wildcards. *)
Lemma generalizing_specifier_keeps_validity_witness :
  result (HasValidEventPathForEndpoint Sample.only_subject_7
            (registry_data_model Sample.registry_onoff Sample.view_for_all)
            1 MoreSamples.wildcard_cluster_and_event
            (7 : @SubjectDescriptor Sample.precise)) = true.
Proof.
  apply (@generalizing_specifier_keeps_validity Sample.precise
           Sample.only_subject_7
           (registry_data_model Sample.registry_onoff Sample.view_for_all)
           1 (EventPathParams.mk 6 0) MoreSamples.wildcard_cluster_and_event
           7).
  - apply registry_found_clusters_listed.
  - split; left; reflexivity.
  - left. reflexivity.
  - reflexivity.
Defined.

(** Subject 5 is refused everything by the first policy and granted
    everything by the second. *)
Lemma widening_grants_never_adds_checks_witness :
  is_prefix
    (trail (HasValidEventPathForEndpoint (Sample.allow_all Sample.precise)
              (registry_data_model Sample.registry_three_events
                 Sample.view_for_all)
              1 MoreSamples.wildcard_cluster_and_event
              (5 : @SubjectDescriptor Sample.precise)))
    (trail (HasValidEventPathForEndpoint Sample.only_subject_7
              (registry_data_model Sample.registry_three_events
                 Sample.view_for_all)
              1 MoreSamples.wildcard_cluster_and_event
              (5 : @SubjectDescriptor Sample.precise))).
Proof.
  apply (@widening_grants_never_adds_checks Sample.precise
           Sample.only_subject_7 (Sample.allow_all Sample.precise)).
  intros s rp priv _. reflexivity.
Defined.

(** Cluster 6 has no granted event, cluster 40 has one. *)
Lemma wildcard_cluster_stops_at_first_valid_witness :
  result (HasValidEventPathForEndpoint
            (MoreSamples.only_events_2_3 Sample.precise)
            (registry_data_model Sample.registry_three_events
               Sample.view_for_all)
            1 MoreSamples.wildcard_cluster_and_event
            (7 : @SubjectDescriptor Sample.precise)) = true
  /\ trail (HasValidEventPathForEndpoint
              (MoreSamples.only_events_2_3 Sample.precise)
              (registry_data_model Sample.registry_three_events
                 Sample.view_for_all)
              1 MoreSamples.wildcard_cluster_and_event
              (7 : @SubjectDescriptor Sample.precise))
     = trail (HasValidEventPathForEndpointAndCluster
                (MoreSamples.only_events_2_3 Sample.precise)
                (registry_data_model Sample.registry_three_events
                   Sample.view_for_all)
                1 Sample.onoff MoreSamples.wildcard_cluster_and_event
                (7 : @SubjectDescriptor Sample.precise))
       ++ trail (HasValidEventPathForEndpointAndCluster
                   (MoreSamples.only_events_2_3 Sample.precise)
                   (registry_data_model Sample.registry_three_events
                      Sample.view_for_all)
                   1 Sample.three_events
                   MoreSamples.wildcard_cluster_and_event
                   (7 : @SubjectDescriptor Sample.precise)).
Proof.
  refine (@wildcard_cluster_stops_at_first_valid Sample.precise
            (MoreSamples.only_events_2_3 Sample.precise)
            (registry_data_model Sample.registry_three_events
               Sample.view_for_all)
            1 {| cluster := [Sample.onoff; Sample.three_events] |}
            MoreSamples.wildcard_cluster_and_event 7
            [Sample.onoff] [] Sample.three_events _ _ _ _ _).
  - reflexivity.
  - reflexivity.
  - reflexivity.
  - intros r [Hr|[]]. rewrite <- Hr. reflexivity.
  - reflexivity.
Defined.
